(** * The Dataset reconciler of dataset-controller

    A shallow embedding of [internal/controller/dataset_controller.go] and of
    [pkg/config], and the properties of the specification that concern them.

    The reconciler talks to three kinds of collaborators that live outside the
    repository: the cluster state store (controller-runtime's client), the
    process environment (files, environment variables) and a few library
    functions (template renderer, YAML decoder, JSON decoder, owner-reference
    helper).  The store is an interface ([Client]); the rest of the
    environment is a record of functions ([Env]); the library functions whose
    behaviour a property depends on are modelled after their Go
    implementation.  Logging calls ([r.Log.*]) have no effect on control flow
    and are left out, and so is [SetupWithManager], which only registers the
    reconciler and its event filter. *)

From stdpp Require Import gmap strings list fin_maps pretty.
From Stdlib Require Import Ascii String.

Local Open Scope string_scope.
Local Open Scope list_scope.

(** ** Errors *)

(** Reasons of a Kubernetes API [StatusError] that the model distinguishes. *)
Inductive StatusReason : Type :=
  | StatusReasonNotFound
  | StatusReasonAlreadyExists
  | StatusReasonConflict
  | StatusReasonForbidden
  | StatusReasonInvalid.

(** A Go [error] value that is not nil, by the package that builds it. *)
Inductive error : Type :=
  | StatusError (reason : StatusReason) (message : string)
      (* k8s.io/apimachinery/pkg/api/errors *)
  | SyntaxError
      (* encoding/json: the text is not JSON *)
  | UnmarshalTypeError (value : string)
      (* encoding/json: a JSON value of kind [value] does not fit the Go type *)
  | PathError (op path : string)
      (* os *)
  | GenericError (msg : string).
      (* fmt.Errorf, errors.New and the like *)

(** A Go result pair [(a, err)] of which exactly one side is meaningful. *)
Inductive Result (A : Type) : Type :=
  | Ok (a : A)
  | Err (err : error).
Arguments Ok {A} a.
Arguments Err {A} err.

#[global] Instance StatusReason_eq_dec : EqDecision StatusReason.
Proof. solve_decision. Defined.
#[global] Instance error_eq_dec : EqDecision error.
Proof. solve_decision. Defined.

(** [apierrors.IsNotFound]: the error is an API status with reason NotFound. *)
Definition apierrors_IsNotFound (err : error) : bool :=
  match err with
  | StatusError StatusReasonNotFound _ => true
  | _ => false
  end.

(** [client.IgnoreNotFound]: nil for a not-found error, the error otherwise.
    The argument is a non-nil error here: both call sites are inside
    [if err != nil]. *)
Definition IgnoreNotFound (err : error) : option error :=
  if apierrors_IsNotFound err then None else Some err.

(** ** Generic values *)

(** What [encoding/json] stores in an [interface{}], and the payload of an
    unstructured document.  A number keeps its literal (Go stores a float64);
    a nested object keeps its members in source order. *)
#[local] Set Warnings "-register-all".
Inductive Value : Type :=
  | VNull
  | VBool (b : bool)
  | VNumber (literal : string)
  | VString (s : string)
  | VArray (elems : list Value)
  | VObject (members : list (string * Value)).

(** ** API types *)

Record GroupVersionKind : Type := {
  Group : string;
  Version : string;
  Kind : string
}.

(** [types.NamespacedName], which is also [client.ObjectKey]. *)
Record NamespacedName : Type := {
  Namespace : string;
  Name : string
}.

(** [metav1.OwnerReference]; [APIVersion] is kept split in group and version,
    and the two [*bool] fields are false when nil. *)
Record OwnerReference : Type := {
  ref_Group : string;
  ref_Version : string;
  ref_Kind : string;
  ref_Name : string;
  ref_UID : string;
  ref_BlockOwnerDeletion : bool;
  ref_Controller : bool
}.

(** The part of [metav1.ObjectMeta] of a typed object that the code reads. *)
Record ObjectMeta : Type := {
  meta_Name : string;
  meta_Namespace : string;
  meta_UID : string;
  meta_ResourceVersion : string
}.

(** [extensionv1beta1.Dataset], along the field paths the controller uses:
    [Spec.DatasetMetadata.DatasetInfo.Subsets[i].Splits.{Train,Test}.File],
    [Spec.DatasetMetadata.Plugin.{LoadPlugin,Name,Parameters}],
    [Status.State]. *)
Record File_ : Type := { File : string }.
Record Splits_ : Type := { Train : File_; Test : File_ }.
Record Subset : Type := { Splits : Splits_ }.
Record DatasetInfo_ : Type := { Subsets : list Subset }.
Record Plugin_ : Type := {
  LoadPlugin : bool;
  Plugin_Name : string;
  Parameters : string
}.
Record DatasetMetadata_ : Type := {
  DatasetInfo : DatasetInfo_;
  Plugin : Plugin_
}.
Record DatasetSpec : Type := { DatasetMetadata : DatasetMetadata_ }.

Inductive DatasetState : Type :=
  | DatasetStateUnset
  | DatasetReady
  | DatasetUnready.

Record DatasetStatus : Type := { State : DatasetState }.

Record Dataset : Type := {
  Dataset_Meta : ObjectMeta;
  Spec : DatasetSpec;
  Status : DatasetStatus
}.

(** [extensionv1beta1.DataPlugin]. *)
Record DataPluginSpec : Type := {
  DatasetClass : string;
  Provider : string
}.
Record DataPlugin : Type := {
  DataPlugin_Meta : ObjectMeta;
  DataPlugin_Spec : DataPluginSpec
}.

(** [unstructured.Unstructured]: identity, the metadata the controller
    touches, and the rest of the document. *)
Record Unstructured : Type := {
  u_GroupVersionKind : GroupVersionKind;
  u_Name : string;
  u_Namespace : string;
  u_ResourceVersion : string;
  u_OwnerReferences : list OwnerReference;
  u_Content : Value
}.

Definition GetNamespace (dataset : Dataset) : string :=
  meta_Namespace (Dataset_Meta dataset).
Definition GetName (dataset : Dataset) : string :=
  meta_Name (Dataset_Meta dataset).
Definition GetUID (dataset : Dataset) : string :=
  meta_UID (Dataset_Meta dataset).

Definition SetNamespace (obj : Unstructured) (ns : string) : Unstructured :=
  {| u_GroupVersionKind := u_GroupVersionKind obj;
     u_Name := u_Name obj;
     u_Namespace := ns;
     u_ResourceVersion := u_ResourceVersion obj;
     u_OwnerReferences := u_OwnerReferences obj;
     u_Content := u_Content obj |}.

Definition SetResourceVersion (obj : Unstructured) (rv : string) : Unstructured :=
  {| u_GroupVersionKind := u_GroupVersionKind obj;
     u_Name := u_Name obj;
     u_Namespace := u_Namespace obj;
     u_ResourceVersion := rv;
     u_OwnerReferences := u_OwnerReferences obj;
     u_Content := u_Content obj |}.

Definition SetOwnerReferences (obj : Unstructured) (owners : list OwnerReference)
  : Unstructured :=
  {| u_GroupVersionKind := u_GroupVersionKind obj;
     u_Name := u_Name obj;
     u_Namespace := u_Namespace obj;
     u_ResourceVersion := u_ResourceVersion obj;
     u_OwnerReferences := owners;
     u_Content := u_Content obj |}.

(** [dataset.Status.State = state]. *)
Definition SetState (dataset : Dataset) (state : DatasetState) : Dataset :=
  {| Dataset_Meta := Dataset_Meta dataset;
     Spec := Spec dataset;
     Status := {| State := state |} |}.

(** The key under which [applyClient] looks a document up. *)
Definition ObjectKeyOf (obj : Unstructured) : NamespacedName :=
  {| Namespace := u_Namespace obj; Name := u_Name obj |}.

(** ** Subset validation *)

(** [s != ""] on Go strings. *)
Definition nonEmpty (s : string) : bool :=
  match s with
  | EmptyString => false
  | String _ _ => true
  end.

(** [isSubsetInfoValid]: the loop returns true at the first subset whose train
    and test files are both set, false when the range is exhausted. *)
Fixpoint isSubsetInfoValid (subsets : list Subset) : bool :=
  match subsets with
  | [] => false
  | subset :: rest =>
      if nonEmpty (File (Train (Splits subset)))
         && nonEmpty (File (Test (Splits subset)))
      then true
      else isSubsetInfoValid rest
  end.

(** ** Decidable equality of documents *)

Fixpoint Value_eqb (v w : Value) {struct v} : bool :=
  let fix elems_eqb (l m : list Value) {struct l} : bool :=
    match l, m with
    | [], [] => true
    | x :: l', y :: m' => Value_eqb x y && elems_eqb l' m'
    | _, _ => false
    end in
  let fix members_eqb (l m : list (string * Value)) {struct l} : bool :=
    match l, m with
    | [], [] => true
    | (k, x) :: l', (k', y) :: m' =>
        bool_decide (k = k') && Value_eqb x y && members_eqb l' m'
    | _, _ => false
    end in
  match v, w with
  | VNull, VNull => true
  | VBool b, VBool c => bool_decide (b = c)
  | VNumber a, VNumber b => bool_decide (a = b)
  | VString a, VString b => bool_decide (a = b)
  | VArray l, VArray m => elems_eqb l m
  | VObject l, VObject m => members_eqb l m
  | _, _ => false
  end.

Definition OwnerReference_eqb (a b : OwnerReference) : bool :=
  bool_decide (ref_Group a = ref_Group b)
  && bool_decide (ref_Version a = ref_Version b)
  && bool_decide (ref_Kind a = ref_Kind b)
  && bool_decide (ref_Name a = ref_Name b)
  && bool_decide (ref_UID a = ref_UID b)
  && bool_decide (ref_BlockOwnerDeletion a = ref_BlockOwnerDeletion b)
  && bool_decide (ref_Controller a = ref_Controller b).

Fixpoint owners_eqb (l m : list OwnerReference) : bool :=
  match l, m with
  | [], [] => true
  | a :: l', b :: m' => OwnerReference_eqb a b && owners_eqb l' m'
  | _, _ => false
  end.

Definition GroupVersionKind_eqb (a b : GroupVersionKind) : bool :=
  bool_decide (Group a = Group b)
  && bool_decide (Version a = Version b)
  && bool_decide (Kind a = Kind b).

Definition Unstructured_eqb (a b : Unstructured) : bool :=
  GroupVersionKind_eqb (u_GroupVersionKind a) (u_GroupVersionKind b)
  && bool_decide (u_Name a = u_Name b)
  && bool_decide (u_Namespace a = u_Namespace b)
  && bool_decide (u_ResourceVersion a = u_ResourceVersion b)
  && owners_eqb (u_OwnerReferences a) (u_OwnerReferences b)
  && Value_eqb (u_Content a) (u_Content b).

(** ** encoding/json

    [json.Unmarshal(data, &parameters)] with [parameters] a nil
    [map[string]interface{}].  Go first checks that [data] is one JSON value
    surrounded by optional white space ([checkValid]) and fails with a
    [SyntaxError] otherwise; then it stores the value: an object fills the map
    (allocating it), [null] leaves the map nil without error, any other value
    is an [UnmarshalTypeError].

    Limits of the model: a number keeps its literal; a [\uXXXX] escape above
    ASCII decodes to the UTF-8 bytes of that single code unit, a surrogate half
    to U+FFFD (Go joins a valid surrogate pair); bytes that are not UTF-8 are
    kept as they are. *)
Module json.

Definition isSpace (c : ascii) : bool :=
  let n := N_of_ascii c in
  bool_decide (n = 32%N) || bool_decide (n = 9%N)
  || bool_decide (n = 10%N) || bool_decide (n = 13%N).

Definition isDigit (c : ascii) : bool :=
  let n := N_of_ascii c in
  bool_decide (48 ≤ n)%N && bool_decide (n ≤ 57)%N.

Definition hexValue (c : ascii) : option N :=
  let n := N_of_ascii c in
  if bool_decide (48 ≤ n)%N && bool_decide (n ≤ 57)%N then Some (n - 48)%N
  else if bool_decide (97 ≤ n)%N && bool_decide (n ≤ 102)%N then Some (n - 87)%N
  else if bool_decide (65 ≤ n)%N && bool_decide (n ≤ 70)%N then Some (n - 55)%N
  else None.

Fixpoint skipSpace (s : string) : string :=
  match s with
  | String c rest => if isSpace c then skipSpace rest else s
  | EmptyString => s
  end.

(** The UTF-8 bytes of a code unit below 0x10000. *)
Definition utf8 (n : N) : string :=
  let byte (k : N) := ascii_of_N k in
  if bool_decide (n < 128)%N then String (byte n) ""
  else if bool_decide (n < 2048)%N then
    String (byte (192 + n / 64)%N) (String (byte (128 + n mod 64)%N) "")
  else if bool_decide (55296 ≤ n)%N && bool_decide (n ≤ 57343)%N then
    String (byte 239%N) (String (byte 191%N) (String (byte 189%N) ""))
  else
    String (byte (224 + n / 4096)%N)
      (String (byte (128 + (n / 64) mod 64)%N)
         (String (byte (128 + n mod 64)%N) "")).

Definition unescape (c : ascii) : option ascii :=
  let n := N_of_ascii c in
  if bool_decide (n = 34)%N then Some c            (* quote *)
  else if bool_decide (n = 92)%N then Some c       (* backslash *)
  else if bool_decide (n = 47)%N then Some c       (* slash *)
  else if bool_decide (n = 98)%N then Some (ascii_of_N 8%N)    (* b *)
  else if bool_decide (n = 102)%N then Some (ascii_of_N 12%N)  (* f *)
  else if bool_decide (n = 110)%N then Some (ascii_of_N 10%N)  (* n *)
  else if bool_decide (n = 114)%N then Some (ascii_of_N 13%N)  (* r *)
  else if bool_decide (n = 116)%N then Some (ascii_of_N 9%N)   (* t *)
  else None.

(** The text after an opening quote, up to the closing one. *)
Fixpoint parseString (s : string) : option (string * string) :=
  match s with
  | EmptyString => None
  | String c rest =>
      let n := N_of_ascii c in
      if bool_decide (n = 34)%N then Some ("", rest)
      else if bool_decide (n = 92)%N then
        match rest with
        | EmptyString => None
        | String e rest' =>
            match unescape e with
            | Some ch =>
                '(str, r) ← parseString rest'; Some (String ch str, r)
            | None =>
                if bool_decide (N_of_ascii e = 117)%N then
                  match rest' with
                  | String h1 (String h2 (String h3 (String h4 tail))) =>
                      a ← hexValue h1; b ← hexValue h2;
                      c ← hexValue h3; d ← hexValue h4;
                      '(str, r) ← parseString tail;
                      Some (utf8 (4096 * a + 256 * b + 16 * c + d)%N +:+ str, r)
                  | _ => None
                  end
                else None
            end
        end
      else if bool_decide (n < 32)%N then None
      else '(str, r) ← parseString rest; Some (String c str, r)
  end.

(** The longest prefix of digits, and what follows it. *)
Fixpoint spanDigits (s : string) : string * string :=
  match s with
  | String c rest =>
      if isDigit c then
        let '(ds, r) := spanDigits rest in (String c ds, r)
      else ("", s)
  | EmptyString => ("", s)
  end.

Definition parseFraction (s : string) : option (string * string) :=
  match s with
  | String c rest =>
      if bool_decide (N_of_ascii c = 46)%N then
        let '(ds, r) := spanDigits rest in
        if nonEmpty ds then Some (String c ds, r) else None
      else Some ("", s)
  | EmptyString => Some ("", s)
  end.

Definition parseExponent (s : string) : option (string * string) :=
  match s with
  | String c rest =>
      if bool_decide (N_of_ascii c = 101)%N || bool_decide (N_of_ascii c = 69)%N
      then
        let '(sign, rest1) :=
          match rest with
          | String g rest' =>
              if bool_decide (N_of_ascii g = 43)%N
                 || bool_decide (N_of_ascii g = 45)%N
              then (String g "", rest') else ("", rest)
          | EmptyString => ("", rest)
          end in
        let '(ds, r) := spanDigits rest1 in
        if nonEmpty ds then Some (String c (sign +:+ ds), r) else None
      else Some ("", s)
  | EmptyString => Some ("", s)
  end.

(** An optional minus sign; a zero, or digits that do not start with zero;
    an optional fraction; an optional exponent. *)
Definition parseNumber (s : string) : option (string * string) :=
  let '(sign, s1) :=
    match s with
    | String c rest =>
        if bool_decide (N_of_ascii c = 45)%N then (String c "", rest) else ("", s)
    | EmptyString => ("", s)
    end in
  '(int, s2) ←
    match s1 with
    | String c rest =>
        if bool_decide (N_of_ascii c = 48)%N then Some (String c "", rest)
        else if isDigit c then Some (spanDigits s1)
        else None
    | EmptyString => None
    end;
  '(frac, s3) ← parseFraction s2;
  '(exp, s4) ← parseExponent s3;
  Some (sign +:+ int +:+ frac +:+ exp, s4).

(** [s] starts with the characters of [lit]: what follows them. *)
Fixpoint stripPrefix (lit s : string) : option string :=
  match lit, s with
  | EmptyString, _ => Some s
  | String a lit', String b s' =>
      if bool_decide (a = b) then stripPrefix lit' s' else None
  | String _ _, EmptyString => None
  end.

Fixpoint parseValue (fuel : nat) (s : string) : option (Value * string) :=
  match fuel with
  | O => None
  | S fuel' =>
      match skipSpace s with
      | EmptyString => None
      | String c rest =>
          let n := N_of_ascii c in
          if bool_decide (n = 110)%N then
            r ← stripPrefix "null" (String c rest); Some (VNull, r)
          else if bool_decide (n = 116)%N then
            r ← stripPrefix "true" (String c rest); Some (VBool true, r)
          else if bool_decide (n = 102)%N then
            r ← stripPrefix "false" (String c rest); Some (VBool false, r)
          else if bool_decide (n = 34)%N then
            '(str, r) ← parseString rest; Some (VString str, r)
          else if bool_decide (n = 91)%N then
            match skipSpace rest with
            | String d rest' =>
                if bool_decide (N_of_ascii d = 93)%N then Some (VArray [], rest')
                else '(elems, r) ← parseElements fuel' rest; Some (VArray elems, r)
            | EmptyString => None
            end
          else if bool_decide (n = 123)%N then
            match skipSpace rest with
            | String d rest' =>
                if bool_decide (N_of_ascii d = 125)%N then Some (VObject [], rest')
                else '(members, r) ← parseMembers fuel' rest; Some (VObject members, r)
            | EmptyString => None
            end
          else
            '(lit, r) ← parseNumber (String c rest); Some (VNumber lit, r)
      end
  end
with parseElements (fuel : nat) (s : string) : option (list Value * string) :=
  match fuel with
  | O => None
  | S fuel' =>
      '(v, r) ← parseValue fuel' s;
      match skipSpace r with
      | String c rest =>
          if bool_decide (N_of_ascii c = 44)%N then
            '(vs, r') ← parseElements fuel' rest; Some (v :: vs, r')
          else if bool_decide (N_of_ascii c = 93)%N then Some ([v], rest)
          else None
      | EmptyString => None
      end
  end
with parseMembers (fuel : nat) (s : string)
  : option (list (string * Value) * string) :=
  match fuel with
  | O => None
  | S fuel' =>
      match skipSpace s with
      | String q rest =>
          if bool_decide (N_of_ascii q = 34)%N then
            '(key, r1) ← parseString rest;
            match skipSpace r1 with
            | String c r2 =>
                if bool_decide (N_of_ascii c = 58)%N then
                  '(v, r3) ← parseValue fuel' r2;
                  match skipSpace r3 with
                  | String d r4 =>
                      if bool_decide (N_of_ascii d = 44)%N then
                        '(ms, r5) ← parseMembers fuel' r4;
                        Some ((key, v) :: ms, r5)
                      else if bool_decide (N_of_ascii d = 125)%N then
                        Some ([(key, v)], r4)
                      else None
                  | EmptyString => None
                  end
                else None
            | EmptyString => None
            end
          else None
      | EmptyString => None
      end
  end.

(** [checkValid] and the scan: one value, then only white space.  The fuel
    covers every text: a value inside an array or an object costs two units
    and stands behind at least one character. *)
Definition parse (data : string) : option Value :=
  match parseValue (2 * String.length data + 2) data with
  | Some (v, rest) =>
      match skipSpace rest with
      | EmptyString => Some v
      | String _ _ => None
      end
  | None => None
  end.

(** An object's members stored one by one with [m[key] = value]: a key that
    occurs twice keeps its last value. *)
Definition toMap (members : list (string * Value)) : gmap string Value :=
  fold_left (fun m kv => <[kv.1 := kv.2]> m) members ∅.

(** The map after the call ([None] is the nil map) and the error. *)
Definition Unmarshal (data : string)
  : option (gmap string Value) * option error :=
  match parse data with
  | None => (None, Some SyntaxError)
  | Some VNull => (None, None)
  | Some (VObject members) => (Some (toMap members), None)
  | Some (VBool _) => (None, Some (UnmarshalTypeError "bool"))
  | Some (VNumber _) => (None, Some (UnmarshalTypeError "number"))
  | Some (VString _) => (None, Some (UnmarshalTypeError "string"))
  | Some (VArray _) => (None, Some (UnmarshalTypeError "array"))
  end.

End json.


(** ** pkg/config

    The package builds one viper instance at start-up: [AutomaticEnv], the key
    [level] bound to [LOG_LEVEL] with default [debug], the key
    [complete_notify_url] bound to [COMPLETE_NOTIFY_URL].  No file and no flag
    are read, so a key is its environment variable when that is set and not
    empty, its default otherwise, and [GetString] of a key with neither is the
    empty string. *)
Module config.

Definition GetString (environ : gmap string string) (variable default : string)
  : string :=
  match environ !! variable with
  | Some v => if nonEmpty v then v else default
  | None => default
  end.


Definition GetCompleteNotifyURL (environ : gmap string string) : string :=
  GetString environ "COMPLETE_NOTIFY_URL" "".

End config.

(** ** controllerutil.SetControllerReference

    After controller-runtime: the owner is validated against the object's
    namespace, the owner's kind is looked up in the scheme, an object that
    already has another controller is refused, and the reference is put in
    place of one to the same object or appended. *)
Module controllerutil.

Definition validateOwner (owner : Dataset) (object : Unstructured) : option error :=
  let ownerNs := GetNamespace owner in
  if nonEmpty ownerNs then
    let objNs := u_Namespace object in
    if negb (nonEmpty objNs) then
      Some (GenericError "cluster-scoped resource must not have a namespace-scoped owner")
    else if negb (bool_decide (ownerNs = objNs)) then
      Some (GenericError "cross-namespace owner references are disallowed")
    else None
  else None.

Definition referSameObject (a b : OwnerReference) : bool :=
  bool_decide (ref_Group a = ref_Group b)
  && bool_decide (ref_Kind a = ref_Kind b)
  && bool_decide (ref_Name a = ref_Name b).

(** [metav1.GetControllerOf]: the first reference whose Controller is true. *)
Fixpoint GetControllerOf (owners : list OwnerReference) : option OwnerReference :=
  match owners with
  | [] => None
  | ref :: rest => if ref_Controller ref then Some ref else GetControllerOf rest
  end.

Fixpoint upsertOwnerRef (ref : OwnerReference) (owners : list OwnerReference)
  : list OwnerReference :=
  match owners with
  | [] => [ref]
  | r :: rest =>
      if referSameObject r ref then ref :: rest
      else r :: upsertOwnerRef ref rest
  end.

(** The reference that makes [owner], of kind [gvk], the controller. *)
Definition controllerRef (gvk : GroupVersionKind) (owner : Dataset) : OwnerReference :=
  {| ref_Group := Group gvk;
     ref_Version := Version gvk;
     ref_Kind := Kind gvk;
     ref_Name := GetName owner;
     ref_UID := GetUID owner;
     ref_BlockOwnerDeletion := true;
     ref_Controller := true |}.

(** [GVKForObject] is what the scheme answers for the owner's Go type. *)
Definition SetControllerReference (owner : Dataset) (controlled : Unstructured)
    (GVKForObject : Result GroupVersionKind) : Result Unstructured :=
  match validateOwner owner controlled with
  | Some err => Err err
  | None =>
      match GVKForObject with
      | Err err => Err err
      | Ok gvk =>
          let ref := controllerRef gvk owner in
          match GetControllerOf (u_OwnerReferences controlled) with
          | Some existing =>
              if negb (referSameObject existing ref) then
                Err (GenericError "Object is already owned by another controller")
              else
                Ok (SetOwnerReferences controlled
                      (upsertOwnerRef ref (u_OwnerReferences controlled)))
          | None =>
              Ok (SetOwnerReferences controlled
                    (upsertOwnerRef ref (u_OwnerReferences controlled)))
          end
      end
  end.

End controllerutil.

(** ** The collaborators *)

(** [client.Client], as far as the reconciler uses it, over a cluster state.
    A read does not change the state; a write returns the state it leaves and
    the error (nil is [None]).  The copy of the stored object that a write
    puts back into its argument is not modelled: the reconciler reads from it
    only fields that a write does not change (name, namespace, UID, spec). *)
Class Client (Cluster : Type) : Type := {
  Get_Dataset : NamespacedName → Cluster → Result Dataset;
  Get_DataPlugin : NamespacedName → Cluster → Result DataPlugin;
  Get_Unstructured : GroupVersionKind → NamespacedName → Cluster → Result Unstructured;
  Status_Update : Dataset → Cluster → option error * Cluster;
  Update : Unstructured → Cluster → option error * Cluster;
  Create : Unstructured → Cluster → option error * Cluster
}.

(** What the process and the libraries outside the repository provide. *)
Record Env : Type := {
  (** the process environment, read by viper *)
  environ : gmap string string;
  (** [config.GetDatatunerxSystemNamespace], not in the sources at hand *)
  GetDatatunerxSystemNamespace : string;
  (** [os.ReadFile], file contents as text *)
  ReadFile : string → Result string;
  (** [filepath.Join] *)
  filepath_Join : list string → string;
  (** [parser.ReplaceTemplate] of utility-server *)
  ReplaceTemplate : string → gmap string Value → Result string;
  (** the YAML decoding serializer, into an empty [Unstructured] *)
  Decode : string → Result Unstructured;
  (** [errors.IsNotFound] of github.com/qiniu/x/errors, the package the
      controller imports as [errors] *)
  errors_IsNotFound : error → bool;
  (** [r.Scheme], asked for the kind of the Dataset type *)
  Scheme : Result GroupVersionKind
}.

(** [ctrl.Request] and [ctrl.Result]. *)
Record Request : Type := { req_NamespacedName : NamespacedName }.
Record ctrl_Result : Type := { Requeue : bool; RequeueAfter : N }.
Definition emptyResult : ctrl_Result := {| Requeue := false; RequeueAfter := 0 |}.

(** ** Observable steps *)

(** One entry per call that leaves the reconciler, with its arguments and
    what came back. *)
Inductive Event : Type :=
  | EvGetDataset (key : NamespacedName) (res : Result Dataset)
  | EvStatusUpdate (dataset : Dataset) (err : option error)
  | EvGetDataPlugin (key : NamespacedName) (res : Result DataPlugin)
  | EvReadFile (path : string) (res : Result string)
  | EvUnmarshal (data : string) (parameters : option (gmap string Value))
      (err : option error)
  | EvReplaceTemplate (yamlStr : string) (parameters : gmap string Value)
      (res : Result string)
  | EvDecode (yamlFile : string) (res : Result Unstructured)
  | EvGet (gvk : GroupVersionKind) (key : NamespacedName) (res : Result Unstructured)
  | EvUpdate (obj : Unstructured) (err : option error)
  | EvCreate (obj : Unstructured) (err : option error).

(** A call ends by returning or by a run-time panic. *)
Inductive Outcome (A : Type) : Type :=
  | Returns (a : A)
  | Panics (msg : string).
Arguments Returns {A} a.
Arguments Panics {A} msg.

(** A computation over the cluster: its outcome, the cluster it leaves and the
    steps it took, oldest first. *)
Definition Run (Cluster A : Type) : Type :=
  Cluster → Outcome A * Cluster * list Event.

Definition ret {Cluster A : Type} (a : A) : Run Cluster A :=
  λ s, (Returns a, s, []).

Definition bind {Cluster A B : Type} (m : Run Cluster A) (k : A → Run Cluster B)
  : Run Cluster B :=
  λ s,
    match m s with
    | (Returns a, s1, t1) =>
        match k a s1 with
        | (o, s2, t2) => (o, s2, t1 ++ t2)
        end
    | (Panics msg, s1, t1) => (Panics msg, s1, t1)
    end.

Definition panic {Cluster A : Type} (msg : string) : Run Cluster A :=
  λ s, (Panics msg, s, []).

(** A call that only reads: the state stays, the step is recorded. *)
Definition observe {Cluster A : Type} (f : Cluster → A) (ev : A → Event)
  : Run Cluster A :=
  λ s, let a := f s in (Returns a, s, [ev a]).

(** A call that writes. *)
Definition perform {Cluster : Type} (f : Cluster → option error * Cluster)
    (ev : option error → Event) : Run Cluster (option error) :=
  λ s, let '(err, s') := f s in (Returns err, s', [ev err]).

#[global] Instance Run_bind {Cluster : Type} : MBind (Run Cluster) :=
  λ A B k m, bind m k.

Definition outcome {Cluster A : Type} (r : Outcome A * Cluster * list Event)
  : Outcome A := r.1.1.
Definition final {Cluster A : Type} (r : Outcome A * Cluster * list Event)
  : Cluster := r.1.2.
Definition trace {Cluster A : Type} (r : Outcome A * Cluster * list Event)
  : list Event := r.2.

(** A step that happens inside the process (a library call): recorded only. *)
Definition note {Cluster : Type} (ev : Event) : Run Cluster unit :=
  λ s, (Returns tt, s, [ev]).

(** ** The reconciler *)

Section Controller.

Context {Cluster : Type} `{!Client Cluster}.
Variable env : Env.

(** [replacePlaceholders]: the plugin parameters are decoded into a map that
    starts nil, [completeNotifyUrl] is stored in it, and the template is
    rendered with it.  Storing into a map that is still nil panics. *)
Definition replacePlaceholders (yamlStr : string) (dataset : Dataset)
  : Run Cluster (string * option error) :=
  let data := Parameters (Plugin (DatasetMetadata (Spec dataset))) in
  let '(parameters, err) := json.Unmarshal data in
  'tt ← note (EvUnmarshal data parameters err);
  match err with
  | Some err => ret ("", Some err)
  | None =>
      match parameters with
      | None => panic "assignment to entry in nil map"
      | Some parameters =>
          let parameters :=
            <["completeNotifyUrl" :=
                VString (config.GetCompleteNotifyURL (environ env))]> parameters in
          let res := ReplaceTemplate env yamlStr parameters in
          'tt ← note (EvReplaceTemplate yamlStr parameters res);
          match res with
          | Err err => ret ("", Some err)
          | Ok replacedYamlStr => ret (replacedYamlStr, None)
          end
      end
  end.

(** [applyClient]: read the document of the same kind, name and namespace;
    an error that [errors.IsNotFound] does not accept is returned; with no
    error the read version is copied and the document updated; otherwise it is
    created. *)
Definition applyClient (obj : Unstructured) : Run Cluster (option error) :=
  let gvk := u_GroupVersionKind obj in
  let key := ObjectKeyOf obj in
  res ← observe (Get_Unstructured gvk key) (EvGet gvk key);
  match res with
  | Err err =>
      if negb (errors_IsNotFound env err) then ret (Some err)
      else
        err ← perform (Create obj) (EvCreate obj);
        match err with
        | Some err => ret (Some err)
        | None => ret None
        end
  | Ok existing =>
      let obj := SetResourceVersion obj (u_ResourceVersion existing) in
      err ← perform (Update obj) (EvUpdate obj);
      match err with
      | Some err => ret (Some err)
      | None => ret None
      end
  end.

(** [applyYAML]: read the template, fill it, decode it, stamp namespace and
    owner, apply. *)
Definition applyYAML (path : string) (dataset : Dataset)
  : Run Cluster (option error) :=
  let file := ReadFile env path in
  'tt ← note (EvReadFile path file);
  match file with
  | Err err => ret (Some err)
  | Ok yamlFile =>
      let yamlStr := yamlFile in
      '(replacedYamlStr, err) ← replacePlaceholders yamlStr dataset;
      match err with
      | Some err => ret (Some err)
      | None =>
          let yamlFile := replacedYamlStr in
          let decoded := Decode env yamlFile in
          'tt ← note (EvDecode yamlFile decoded);
          match decoded with
          | Err err => ret (Some err)
          | Ok unstructuredObj =>
              let unstructuredObj :=
                SetNamespace unstructuredObj (GetNamespace dataset) in
              match controllerutil.SetControllerReference
                      dataset unstructuredObj (Scheme env) with
              | Err err => ret (Some err)
              | Ok unstructuredObj =>
                  err ← applyClient unstructuredObj;
                  match err with
                  | Some err => ret (Some err)
                  | None => ret None
                  end
              end
          end
      end
  end.

(** [Reconcile].  The branch for subsets that are not valid writes the status
    and goes on to the plugin branch unless the write failed. *)
Definition Reconcile (req : Request) : Run Cluster (ctrl_Result * option error) :=
  fetched ← observe (Get_Dataset (req_NamespacedName req))
              (EvGetDataset (req_NamespacedName req));
  match fetched with
  | Err err => ret (emptyResult, IgnoreNotFound err)
  | Ok dataset =>
      '(dataset, err) ←
        (if negb (isSubsetInfoValid
                    (Subsets (DatasetInfo (DatasetMetadata (Spec dataset)))))
         then
           let dataset := SetState dataset DatasetUnready in
           err ← perform (Status_Update dataset) (EvStatusUpdate dataset);
           ret (dataset, err)
         else ret (dataset, None));
      match err with
      | Some err => ret (emptyResult, Some err)
      | None =>
          if LoadPlugin (Plugin (DatasetMetadata (Spec dataset))) then
            let dataPluginName := Plugin_Name (Plugin (DatasetMetadata (Spec dataset))) in
            let key := {| Namespace := GetDatatunerxSystemNamespace env;
                          Name := dataPluginName |} in
            found ← observe (Get_DataPlugin key) (EvGetDataPlugin key);
            match found with
            | Err err => ret (emptyResult, IgnoreNotFound err)
            | Ok dataPlugin =>
                let pluginPath :=
                  filepath_Join env
                    ["plugins";
                     DatasetClass (DataPlugin_Spec dataPlugin);
                     Provider (DataPlugin_Spec dataPlugin);
                     "plugin.yaml"] in
                err ← applyYAML pluginPath dataset;
                match err with
                | Some err => ret (emptyResult, Some err)
                | None => ret (emptyResult, None)
                end
            end
          else ret (emptyResult, None)
      end
  end.

End Controller.

(** ** A reference store

    The cluster state store as section 6 of the specification describes it:
    documents by identity, [get] that answers the document or not-found,
    [create], and [update] that requires the current version token.  A write
    that changes nothing leaves the state, token included, as it is; any other
    write gives the document a new token.  Nothing else writes to this store
    and no call fails for a reason outside the store. *)
Module memory.

Record Cluster : Type := {
  datasets : gmap (string * string) Dataset;
  dataplugins : gmap (string * string) DataPlugin;
  documents : gmap (string * string * string * string * string) Unstructured;
  revision : N
}.

Definition notFound : error := StatusError StatusReasonNotFound "not found".
Definition conflict : error :=
  StatusError StatusReasonConflict "the object has been modified".
Definition alreadyExists : error :=
  StatusError StatusReasonAlreadyExists "already exists".

Definition nameKey (key : NamespacedName) : string * string :=
  (Namespace key, Name key).

Definition documentKey (gvk : GroupVersionKind) (key : NamespacedName)
  : string * string * string * string * string :=
  (Group gvk, Version gvk, Kind gvk, Namespace key, Name key).

Definition nextToken (s : Cluster) : string := pretty (revision s + 1)%N.

Definition getDataset (key : NamespacedName) (s : Cluster) : Result Dataset :=
  match datasets s !! nameKey key with
  | Some dataset => Ok dataset
  | None => Err notFound
  end.

Definition getDataPlugin (key : NamespacedName) (s : Cluster) : Result DataPlugin :=
  match dataplugins s !! nameKey key with
  | Some plugin => Ok plugin
  | None => Err notFound
  end.

Definition getDocument (gvk : GroupVersionKind) (key : NamespacedName) (s : Cluster)
  : Result Unstructured :=
  match documents s !! documentKey gvk key with
  | Some obj => Ok obj
  | None => Err notFound
  end.

Definition putDocument (obj : Unstructured) (s : Cluster) : Cluster :=
  {| datasets := datasets s;
     dataplugins := dataplugins s;
     documents :=
       <[documentKey (u_GroupVersionKind obj) (ObjectKeyOf obj) :=
           SetResourceVersion obj (nextToken s)]> (documents s);
     revision := (revision s + 1)%N |}.

Definition createDocument (obj : Unstructured) (s : Cluster) : option error * Cluster :=
  match documents s !! documentKey (u_GroupVersionKind obj) (ObjectKeyOf obj) with
  | Some _ => (Some alreadyExists, s)
  | None => (None, putDocument obj s)
  end.

Definition updateDocument (obj : Unstructured) (s : Cluster) : option error * Cluster :=
  match documents s !! documentKey (u_GroupVersionKind obj) (ObjectKeyOf obj) with
  | None => (Some notFound, s)
  | Some stored =>
      if bool_decide (u_ResourceVersion stored = u_ResourceVersion obj) then
        if Unstructured_eqb stored obj then (None, s)
        else (None, putDocument obj s)
      else (Some conflict, s)
  end.

Definition DatasetState_eqb (a b : DatasetState) : bool :=
  match a, b with
  | DatasetStateUnset, DatasetStateUnset
  | DatasetReady, DatasetReady
  | DatasetUnready, DatasetUnready => true
  | _, _ => false
  end.

(** The status subresource: only [Status] of the stored Dataset changes. *)
Definition updateStatus (dataset : Dataset) (s : Cluster) : option error * Cluster :=
  let key := (GetNamespace dataset, GetName dataset) in
  match datasets s !! key with
  | None => (Some notFound, s)
  | Some stored =>
      if bool_decide (meta_ResourceVersion (Dataset_Meta stored)
                      = meta_ResourceVersion (Dataset_Meta dataset)) then
        if DatasetState_eqb (State (Status stored)) (State (Status dataset))
        then (None, s)
        else
          (None,
           {| datasets :=
                <[key :=
                    {| Dataset_Meta :=
                         {| meta_Name := meta_Name (Dataset_Meta stored);
                            meta_Namespace := meta_Namespace (Dataset_Meta stored);
                            meta_UID := meta_UID (Dataset_Meta stored);
                            meta_ResourceVersion := nextToken s |};
                       Spec := Spec stored;
                       Status := Status dataset |}]> (datasets s);
              dataplugins := dataplugins s;
              documents := documents s;
              revision := (revision s + 1)%N |})
      else (Some conflict, s)
  end.

#[global] Instance client : Client Cluster := {
  Get_Dataset := getDataset;
  Get_DataPlugin := getDataPlugin;
  Get_Unstructured := getDocument;
  Status_Update := updateStatus;
  Update := updateDocument;
  Create := createDocument
}.

End memory.

(** ** A store behind an access policy

    The reference store with verbs that the API server refuses: a call on a
    refused verb fails with Forbidden and changes nothing. *)
Module guarded.

Inductive Verb : Type :=
  | GetDatasets
  | UpdateDatasetStatus
  | GetDataPlugins
  | GetDocuments
  | UpdateDocuments
  | CreateDocuments.

#[global] Instance Verb_eq_dec : EqDecision Verb.
Proof. solve_decision. Defined.

Record Cluster : Type := {
  store : memory.Cluster;
  refused : list Verb
}.

Definition forbidden : error := StatusError StatusReasonForbidden "forbidden".

Definition read {A : Type} (verb : Verb) (f : memory.Cluster → Result A)
    (s : Cluster) : Result A :=
  if bool_decide (verb ∈ refused s) then Err forbidden else f (store s).

Definition write (verb : Verb) (f : memory.Cluster → option error * memory.Cluster)
    (s : Cluster) : option error * Cluster :=
  if bool_decide (verb ∈ refused s) then (Some forbidden, s)
  else
    let '(err, m) := f (store s) in
    (err, {| store := m; refused := refused s |}).

#[global] Instance client : Client Cluster := {
  Get_Dataset key := read GetDatasets (memory.getDataset key);
  Get_DataPlugin key := read GetDataPlugins (memory.getDataPlugin key);
  Get_Unstructured gvk key := read GetDocuments (memory.getDocument gvk key);
  Status_Update dataset := write UpdateDatasetStatus (memory.updateStatus dataset);
  Update obj := write UpdateDocuments (memory.updateDocument obj);
  Create obj := write CreateDocuments (memory.createDocument obj)
}.

End guarded.

(** ** A concrete deployment

    One plugin, one template and a handful of Datasets, used to run the
    reconciler on concrete inputs.  The renderer and the YAML decoder are
    scripted for the one template; [errors.IsNotFound] accepts the store's
    not-found status. *)
Module deployment.

Definition quote : string := String (ascii_of_N 34%N) "".

Definition notifyURL : string := "http://notify.local/done".

Definition templatePath : string := "plugins/text/acme/plugin.yaml".
Definition templateHead : string := "kind: Job name: loader notify: ".
Definition template : string := templateHead +:+ "{{completeNotifyUrl}}".

Definition textOf (v : Value) : Result string :=
  match v with
  | VString s => Ok s
  | VNumber literal => Ok literal
  | _ => Err (GenericError "value has no plain text form")
  end.

Definition render (yamlStr : string) (parameters : gmap string Value) : Result string :=
  if bool_decide (yamlStr = template) then
    match parameters !! "completeNotifyUrl" with
    | Some v =>
        match textOf v with
        | Ok text => Ok (templateHead +:+ text)
        | Err err => Err err
        end
    | None => Err (GenericError "no value for completeNotifyUrl")
    end
  else Err (GenericError "unknown template").

Definition jobKind : GroupVersionKind :=
  {| Group := "batch"; Version := "v1"; Kind := "Job" |}.

Definition decode (yamlFile : string) : Result Unstructured :=
  match json.stripPrefix templateHead yamlFile with
  | Some url =>
      Ok {| u_GroupVersionKind := jobKind;
            u_Name := "loader";
            u_Namespace := "";
            u_ResourceVersion := "";
            u_OwnerReferences := [];
            u_Content := VObject [("notify", VString url)] |}
  | None => Err (GenericError "cannot decode the manifest")
  end.

Definition datasetKind : GroupVersionKind :=
  {| Group := "extension.datatunerx.io"; Version := "v1beta1"; Kind := "Dataset" |}.

Definition env : Env :=
  {| environ := {[ "COMPLETE_NOTIFY_URL" := notifyURL ]};
     GetDatatunerxSystemNamespace := "datatunerx-dev";
     ReadFile path :=
       if bool_decide (path = templatePath) then Ok template
       else Err (PathError "open" path);
     filepath_Join elems := String.concat "/" (List.filter nonEmpty elems);
     ReplaceTemplate := render;
     Decode := decode;
     errors_IsNotFound := apierrors_IsNotFound;
     Scheme := Ok datasetKind |}.

Definition subset (train test : string) : Subset :=
  {| Splits := {| Train := {| File := train |}; Test := {| File := test |} |} |}.

Definition dataset (name : string) (subsets : list Subset) (load : bool)
    (plugin parameters : string) : Dataset :=
  {| Dataset_Meta :=
       {| meta_Name := name;
          meta_Namespace := "default";
          meta_UID := "uid-" +:+ name;
          meta_ResourceVersion := "1" |};
     Spec :=
       {| DatasetMetadata :=
            {| DatasetInfo := {| Subsets := subsets |};
               Plugin :=
                 {| LoadPlugin := load;
                    Plugin_Name := plugin;
                    Parameters := parameters |} |} |};
     Status := {| State := DatasetStateUnset |} |}.

(** Train file only, plugin requested. *)
Definition ds1 : Dataset :=
  dataset "ds-1" [subset "train.csv" ""] true "p1" "{}".
(** Train and test file, plugin requested. *)
Definition ds2 : Dataset :=
  dataset "ds-2" [subset "a" "b"] true "p1" "{}".
(** No subset, no plugin requested. *)
Definition ds3 : Dataset :=
  dataset "ds-3" [] false "" "".
(** Train and test file, a plugin that is not installed. *)
Definition ds4 : Dataset :=
  dataset "ds-4" [subset "a" "b"] true "p9" "{}".
(** Train and test file, parameters that set the notify URL themselves. *)
Definition ds5 : Dataset :=
  dataset "ds-5" [subset "a" "b"] true "p1"
    ("{" +:+ quote +:+ "completeNotifyUrl" +:+ quote +:+ ":"
     +:+ quote +:+ "http://elsewhere" +:+ quote +:+ "}").

(** Train and test file, no parameters at all. *)
Definition ds6 : Dataset :=
  dataset "ds-6" [subset "a" "b"] true "p1" "".
(** Train and test file, parameters that are a JSON array. *)
Definition ds7 : Dataset :=
  dataset "ds-7" [subset "a" "b"] true "p1" "[]".
(** Train and test file, parameters that are the JSON null. *)
Definition ds8 : Dataset :=
  dataset "ds-8" [subset "a" "b"] true "p1" "null".

Definition p1 : DataPlugin :=
  {| DataPlugin_Meta :=
       {| meta_Name := "p1";
          meta_Namespace := "datatunerx-dev";
          meta_UID := "uid-p1";
          meta_ResourceVersion := "1" |};
     DataPlugin_Spec := {| DatasetClass := "text"; Provider := "acme" |} |}.

Definition keyOf (d : Dataset) : string * string := (GetNamespace d, GetName d).

Definition cluster : memory.Cluster :=
  {| memory.datasets :=
       list_to_map ((λ d, (keyOf d, d)) <$> [ds1; ds2; ds3; ds4; ds5; ds6; ds7; ds8]);
     memory.dataplugins := {[ ("datatunerx-dev", "p1") := p1 ]};
     memory.documents := ∅;
     memory.revision := 1 |}.

Definition request (d : Dataset) : Request :=
  {| req_NamespacedName := {| Namespace := GetNamespace d; Name := GetName d |} |}.

(** The Job of the template as [applyYAML] hands it over for [ds2]. *)
Definition job : Unstructured :=
  {| u_GroupVersionKind := jobKind;
     u_Name := "loader";
     u_Namespace := "default";
     u_ResourceVersion := "";
     u_OwnerReferences := [controllerutil.controllerRef datasetKind ds2];
     u_Content := VObject [("notify", VString notifyURL)] |}.

(** A request for a Dataset that is not in the cluster. *)
Definition strayRequest : Request :=
  {| req_NamespacedName := {| Namespace := "default"; Name := "ds-0" |} |}.

(** The cluster with status writes refused. *)
Definition readOnlyStatus : guarded.Cluster :=
  {| guarded.store := cluster; guarded.refused := [guarded.UpdateDatasetStatus] |}.


End deployment.

(** ** The event filter

    [SetupWithManager] registers the reconciler for Datasets with one
    predicate, whose [UpdateFunc] decides which update events reach
    [Reconcile]. *)

(** A [client.Object] as an event carries it: the filter tells a Dataset from
    anything else (nil included) by a type assertion. *)
Inductive Object : Type :=
  | ObjDataset (dataset : Dataset)
  | ObjDataPlugin (dataPlugin : DataPlugin)
  | ObjUnstructured (obj : Unstructured)
  | ObjNil.

(** [event.UpdateEvent]. *)
Record UpdateEvent : Type := {
  ObjectOld : Object;
  ObjectNew : Object
}.

#[global] Instance Plugin_eq_dec : EqDecision Plugin_.
Proof. solve_decision. Defined.

(** [UpdateFunc]: false when either object is not a Dataset; otherwise
    whether the two plugin references differ ([!=] on the struct). *)
Definition UpdateFunc (e : UpdateEvent) : bool :=
  match ObjectOld e with
  | ObjDataset oldDataset =>
      match ObjectNew e with
      | ObjDataset newDataset =>
          negb (bool_decide (Plugin (DatasetMetadata (Spec oldDataset))
                             = Plugin (DatasetMetadata (Spec newDataset))))
      | _ => false
      end
  | _ => false
  end.

(** More vocabulary: status writes, and what a Dataset is to the apply
    pipeline. *)
Definition isStatusWrite (ev : Event) : bool :=
  match ev with
  | EvStatusUpdate _ _ => true
  | _ => false
  end.

(** The two Datasets have the same name, namespace, UID and spec: they differ
    at most in version token and status. *)
Definition sameButStatus (a b : Dataset) : Prop :=
  GetName a = GetName b
  ∧ GetNamespace a = GetNamespace b
  ∧ GetUID a = GetUID b
  ∧ Spec a = Spec b.

(** Every Dataset of the reference store is stored under its own namespace
    and name. *)
Definition keyedByName (s : memory.Cluster) : Prop :=
  ∀ key dataset,
    memory.datasets s !! key = Some dataset →
    key = (GetNamespace dataset, GetName dataset).

(** The deployment with reads of Datasets refused, and with reads of plugin
    descriptors refused. *)
Definition unreadableDatasets : guarded.Cluster :=
  {| guarded.store := deployment.cluster;
     guarded.refused := [guarded.GetDatasets] |}.
Definition unreadablePlugins : guarded.Cluster :=
  {| guarded.store := deployment.cluster;
     guarded.refused := [guarded.GetDataPlugins] |}.

(** The environment of the deployment without [COMPLETE_NOTIFY_URL]. *)
Definition unconfigured : Env :=
  {| environ := ∅;
     GetDatatunerxSystemNamespace := GetDatatunerxSystemNamespace deployment.env;
     ReadFile := ReadFile deployment.env;
     filepath_Join := filepath_Join deployment.env;
     ReplaceTemplate := ReplaceTemplate deployment.env;
     Decode := Decode deployment.env;
     errors_IsNotFound := errors_IsNotFound deployment.env;
     Scheme := Scheme deployment.env |}.

(** ** Vocabulary of the properties *)

(** Resolving the plugin: the read of the Plugin Descriptor. *)
Definition isPluginResolution (ev : Event) : bool :=
  match ev with
  | EvGetDataPlugin _ _ => true
  | _ => false
  end.

(** The manifest pipeline: template read, parameter decode, render, manifest
    decode, and every read or write of a child document. *)
Definition isManifestStep (ev : Event) : bool :=
  match ev with
  | EvReadFile _ _ | EvUnmarshal _ _ _ | EvReplaceTemplate _ _ _ | EvDecode _ _
  | EvGet _ _ _ | EvUpdate _ _ | EvCreate _ _ => true
  | EvGetDataset _ _ | EvStatusUpdate _ _ | EvGetDataPlugin _ _ => false
  end.

(** The document a step writes to the store, if it is a write of a child
    document. *)
Definition writtenDocument (ev : Event) : option Unstructured :=
  match ev with
  | EvUpdate obj _ | EvCreate obj _ => Some obj
  | _ => None
  end.

Definition isDocumentWrite (ev : Event) : bool :=
  match writtenDocument ev with
  | Some _ => true
  | None => false
  end.

(** [ref] makes [dataset] the controlling owner. *)
Definition refersTo (dataset : Dataset) (ref : OwnerReference) : Prop :=
  ref_Name ref = GetName dataset
  ∧ ref_UID ref = GetUID dataset
  ∧ ref_Controller ref = true.

(** [obj] lives in the namespace of [dataset] and carries an owner reference
    to it. *)
Definition stampedFor (dataset : Dataset) (obj : Unstructured) : Prop :=
  u_Namespace obj = GetNamespace dataset
  ∧ ∃ ref, ref ∈ u_OwnerReferences obj ∧ refersTo dataset ref.


(** The store of section 6 with nothing else writing to it and no failure of
    its own, as the apply engine sees it: a read finds the document or reports
    it absent in a way [IsNotFound] accepts; a create of an absent document and
    an update that carries the current version token succeed and store the
    document under some token; an update with the stored document itself
    changes nothing. *)
Class StoreContract (Cluster : Type) `{!Client Cluster}
    (IsNotFound : error → bool) : Prop := {
  get_found_or_absent gvk key (s : Cluster) :
    (∃ obj, Get_Unstructured gvk key s = Ok obj)
    ∨ (∃ err, Get_Unstructured gvk key s = Err err ∧ IsNotFound err = true);
  create_absent obj (s : Cluster) err :
    Get_Unstructured (u_GroupVersionKind obj) (ObjectKeyOf obj) s = Err err →
    IsNotFound err = true →
    ∃ s' rv,
      Create obj s = (None, s')
      ∧ Get_Unstructured (u_GroupVersionKind obj) (ObjectKeyOf obj) s'
        = Ok (SetResourceVersion obj rv);
  update_current obj (s : Cluster) existing :
    Get_Unstructured (u_GroupVersionKind obj) (ObjectKeyOf obj) s = Ok existing →
    u_ResourceVersion obj = u_ResourceVersion existing →
    ∃ s' rv,
      Update obj s = (None, s')
      ∧ Get_Unstructured (u_GroupVersionKind obj) (ObjectKeyOf obj) s'
        = Ok (SetResourceVersion obj rv);
  update_same obj (s : Cluster) :
    Get_Unstructured (u_GroupVersionKind obj) (ObjectKeyOf obj) s = Ok obj →
    Update obj s = (None, s)
}.

(** * Properties *)

(** ** Subset validation *)

Lemma nonEmpty_true (s : string) : nonEmpty s = true ↔ s ≠ "".
Proof. destruct s; simpl; split; intros; congruence. Qed.

Lemma bothFiles_true (subset : Subset) :
  nonEmpty (File (Train (Splits subset))) && nonEmpty (File (Test (Splits subset)))
  = true
  ↔ File (Train (Splits subset)) ≠ "" ∧ File (Test (Splits subset)) ≠ "".
Proof. by rewrite andb_true_iff, !nonEmpty_true. Qed.

(** C7: the subset-readiness predicate is true exactly when some subset of the
    list has a train file reference and a test file reference that are both
    not empty; on the empty list it is false. *)
Theorem isSubsetInfoValid_iff (subsets : list Subset) :
  (isSubsetInfoValid subsets = true
   ↔ ∃ subset, subset ∈ subsets
        ∧ File (Train (Splits subset)) ≠ ""
        ∧ File (Test (Splits subset)) ≠ "")
  ∧ isSubsetInfoValid [] = false.
Proof.
  split; [|reflexivity].
  induction subsets as [|subset rest IH]; simpl.
  - split; [discriminate|]. intros (x & Hx & _). by apply elem_of_nil in Hx.
  - destruct (nonEmpty _ && nonEmpty _) eqn:Hboth.
    + split; [intros _|done]. exists subset.
      split; [apply list_elem_of_here|by apply bothFiles_true].
    + rewrite IH. split.
      * intros (x & Hx & Hfiles). exists x.
        split; [by apply list_elem_of_further|done].
      * intros (x & [->|Hx]%elem_of_cons & Hfiles); [|by exists x].
        apply bothFiles_true in Hfiles. congruence.
Qed.

(** ** Running the reconciler *)

(** Unfolds the plumbing of [Run] so that a run shows as a triple. *)
Ltac run :=
  unfold mbind, Run_bind, bind, observe, perform, note, ret, panic,
    outcome, final, trace; simpl.

Section Properties.

Context {Cluster : Type} `{!Client Cluster}.
Variable env : Env.

(** What [applyClient] does, by the answer of the read. *)
Lemma applyClient_run (obj : Unstructured) (s : Cluster) :
  applyClient env obj s =
    let gvk := u_GroupVersionKind obj in
    let key := ObjectKeyOf obj in
    match Get_Unstructured gvk key s with
    | Ok existing =>
        let obj' := SetResourceVersion obj (u_ResourceVersion existing) in
        (Returns (Update obj' s).1, (Update obj' s).2,
         [EvGet gvk key (Ok existing); EvUpdate obj' (Update obj' s).1])
    | Err err =>
        if errors_IsNotFound env err then
          (Returns (Create obj s).1, (Create obj s).2,
           [EvGet gvk key (Err err); EvCreate obj (Create obj s).1])
        else (Returns (Some err), s, [EvGet gvk key (Err err)])
    end.
Proof.
  unfold applyClient. run.
  destruct (Get_Unstructured _ _ s) as [existing|err]; simpl.
  - by destruct (Update _ s) as [[e|] s'].
  - destruct (errors_IsNotFound env err); simpl; [|done].
    by destruct (Create obj s) as [[e|] s'].
Qed.

(** What [replacePlaceholders] does, by the answer of the JSON decoder. *)
Lemma replacePlaceholders_run (yamlStr : string) (dataset : Dataset) (s : Cluster) :
  replacePlaceholders env yamlStr dataset s =
    let data := Parameters (Plugin (DatasetMetadata (Spec dataset))) in
    match json.Unmarshal data with
    | (parameters, Some err) =>
        (Returns ("", Some err), s, [EvUnmarshal data parameters (Some err)])
    | (None, None) =>
        (Panics "assignment to entry in nil map", s, [EvUnmarshal data None None])
    | (Some parameters, None) =>
        let used :=
          <["completeNotifyUrl" :=
              VString (config.GetCompleteNotifyURL (environ env))]> parameters in
        (Returns match ReplaceTemplate env yamlStr used with
                 | Ok replacedYamlStr => (replacedYamlStr, None)
                 | Err err => ("", Some err)
                 end,
         s,
         [EvUnmarshal data (Some parameters) None;
          EvReplaceTemplate yamlStr used (ReplaceTemplate env yamlStr used)])
    end.
Proof.
  unfold replacePlaceholders. simpl.
  destruct (json.Unmarshal _) as [[parameters|] [err|]]; run; try done.
  by destruct (ReplaceTemplate env yamlStr _).
Qed.

Lemma applyClient_steps (obj : Unstructured) (s : Cluster) :
  Forall (λ ev, isManifestStep ev = true) (trace (applyClient env obj s)).
Proof.
  rewrite applyClient_run. simpl.
  destruct (Get_Unstructured _ _ s); [|destruct (errors_IsNotFound env _)];
    unfold trace; simpl; repeat constructor.
Qed.

Lemma replacePlaceholders_steps (yamlStr : string) (dataset : Dataset) (s : Cluster) :
  Forall (λ ev, isManifestStep ev = true)
    (trace (replacePlaceholders env yamlStr dataset s)).
Proof.
  rewrite replacePlaceholders_run. simpl.
  destruct (json.Unmarshal _) as [[parameters|] [err|]];
    unfold trace; simpl; repeat constructor.
Qed.

(** [replacePlaceholders] leaves the cluster as it is. *)
Lemma replacePlaceholders_final (yamlStr : string) (dataset : Dataset) (s : Cluster) :
  final (replacePlaceholders env yamlStr dataset s) = s.
Proof.
  rewrite replacePlaceholders_run. simpl.
  by destruct (json.Unmarshal _) as [[parameters|] [err|]].
Qed.

(** The run of [applyYAML] up to the call of [applyClient]: either it ends
    before, with steps of the pipeline that write nothing, or it hands a
    document to [applyClient] and ends as that call does. *)
Lemma applyYAML_run (path : string) (dataset : Dataset) (s : Cluster) :
  (∃ o before,
      applyYAML env path dataset s = (o, s, before)
      ∧ Forall (λ ev, isManifestStep ev = true ∧ isDocumentWrite ev = false) before)
  ∨ (∃ before decoded gvk obj,
      Scheme env = Ok gvk
      ∧ controllerutil.SetControllerReference dataset
          (SetNamespace decoded (GetNamespace dataset)) (Scheme env) = Ok obj
      ∧ Forall (λ ev, isManifestStep ev = true ∧ isDocumentWrite ev = false) before
      ∧ applyYAML env path dataset s =
          (outcome (applyClient env obj s), final (applyClient env obj s),
           before ++ trace (applyClient env obj s))).
Proof.
  unfold applyYAML. run.
  destruct (ReadFile env path) as [yamlFile|err]; simpl.
  2:{ left. eexists _, _. split; [done|]. repeat constructor. }
  rewrite replacePlaceholders_run. simpl.
  destruct (json.Unmarshal _) as [[parameters|] [err|]]; simpl.
  1,3,4: left; eexists _, _; (split; [done|]); repeat constructor.
  destruct (ReplaceTemplate env yamlFile _) as [replaced|err] eqn:Hrender; simpl.
  2:{ left. eexists _, _. split; [done|]. repeat constructor. }
  destruct (Decode env replaced) as [decoded|err] eqn:Hdecode; simpl.
  2:{ left. eexists _, _. split; [done|]. repeat constructor. }
  destruct (controllerutil.SetControllerReference _ _ _) as [obj|err] eqn:Hown; simpl.
  2:{ left. eexists _, _. split; [done|]. repeat constructor. }
  right.
  assert (∃ gvk, Scheme env = Ok gvk) as [gvk Hgvk].
  { unfold controllerutil.SetControllerReference in Hown.
    destruct (controllerutil.validateOwner _ _); [done|].
    destruct (Scheme env); [by eexists|done]. }
  exists [EvReadFile path (Ok yamlFile);
          EvUnmarshal (Parameters (Plugin (DatasetMetadata (Spec dataset))))
            (Some parameters) None;
          EvReplaceTemplate yamlFile
            (<["completeNotifyUrl" :=
                 VString (config.GetCompleteNotifyURL (environ env))]> parameters)
            (Ok replaced);
          EvDecode replaced (Ok decoded)], decoded, gvk, obj.
  split; [done|]. split; [done|]. split; [repeat constructor|].
  destruct (applyClient env obj s) as [[[[e|]|msg] s'] t]; simpl; try done.
  all: by rewrite app_nil_r.
Qed.

Lemma applyYAML_steps (path : string) (dataset : Dataset) (s : Cluster) :
  Forall (λ ev, isManifestStep ev = true) (trace (applyYAML env path dataset s)).
Proof.
  destruct (applyYAML_run path dataset s)
    as [(o & before & -> & Hbefore)|(before & decoded & gvk & obj & _ & _ & Hbefore & ->)];
    unfold trace at 1; simpl.
  - eapply Forall_impl; [done|]. by intros ev [? _].
  - apply Forall_app. split; [|apply applyClient_steps].
    eapply Forall_impl; [done|]. by intros ev [? _].
Qed.

(** What [Reconcile] does, by the answers of the store: the read of the
    Dataset, the status write when the subsets are not valid, the read of the
    plugin when one is requested, and then [applyYAML]. *)
Lemma Reconcile_run (req : Request) (s : Cluster) :
  Reconcile env req s =
    let name := req_NamespacedName req in
    match Get_Dataset name s with
    | Err err => (Returns (emptyResult, IgnoreNotFound err), s, [EvGetDataset name (Err err)])
    | Ok fetched =>
        let valid :=
          isSubsetInfoValid (Subsets (DatasetInfo (DatasetMetadata (Spec fetched)))) in
        let dataset := if valid then fetched else SetState fetched DatasetUnready in
        let written := if valid then (None, s) else Status_Update dataset s in
        let status := if valid then [] else [EvStatusUpdate dataset written.1] in
        match written.1 with
        | Some err =>
            (Returns (emptyResult, Some err), written.2,
             EvGetDataset name (Ok fetched) :: status)
        | None =>
            if LoadPlugin (Plugin (DatasetMetadata (Spec fetched))) then
              let key :=
                {| Namespace := GetDatatunerxSystemNamespace env;
                   Name := Plugin_Name (Plugin (DatasetMetadata (Spec fetched))) |} in
              match Get_DataPlugin key written.2 with
              | Err err =>
                  (Returns (emptyResult, IgnoreNotFound err), written.2,
                   EvGetDataset name (Ok fetched)
                   :: status ++ [EvGetDataPlugin key (Err err)])
              | Ok dataPlugin =>
                  let applied :=
                    applyYAML env
                      (filepath_Join env
                         ["plugins";
                          DatasetClass (DataPlugin_Spec dataPlugin);
                          Provider (DataPlugin_Spec dataPlugin);
                          "plugin.yaml"])
                      dataset written.2 in
                  (match outcome applied with
                   | Returns err => Returns (emptyResult, err)
                   | Panics msg => Panics msg
                   end,
                   final applied,
                   EvGetDataset name (Ok fetched)
                   :: status ++ EvGetDataPlugin key (Ok dataPlugin) :: trace applied)
              end
            else
              (Returns (emptyResult, None), written.2,
               EvGetDataset name (Ok fetched) :: status)
        end
    end.
Proof.
  unfold Reconcile. run.
  destruct (Get_Dataset _ s) as [fetched|err]; simpl; [|done].
  destruct (isSubsetInfoValid _) eqn:Hvalid; simpl.
  - destruct (LoadPlugin _); simpl; [|done].
    destruct (Get_DataPlugin _ s) as [dataPlugin|err]; simpl; [|done].
    destruct (applyYAML _ _ _ _) as [[[[e|]|msg] s'] t]; simpl; try done.
    all: by rewrite app_nil_r.
  - destruct (Status_Update _ s) as [[err|] s1]; simpl; [done|].
    destruct (LoadPlugin _); simpl; [|done].
    destruct (Get_DataPlugin _ s1) as [dataPlugin|err]; simpl; [|done].
    destruct (applyYAML _ _ _ _) as [[[[e|]|msg] s'] t]; simpl; try done.
    all: by rewrite app_nil_r.
Qed.

(** ** The reconcile cycle *)

(** C5: when the Dataset of the request is not found, reconciliation returns
    the empty result and no error, and its only step is that read: no status
    write, no plugin resolution, no apply; the cluster is as it was. *)
Theorem Reconcile_dataset_absent (req : Request) (s : Cluster) (err : error) :
  Get_Dataset (req_NamespacedName req) s = Err err →
  apierrors_IsNotFound err = true →
  Reconcile env req s
  = (Returns (emptyResult, None), s, [EvGetDataset (req_NamespacedName req) (Err err)]).
Proof.
  intros Hget Hnf. rewrite Reconcile_run. simpl. rewrite Hget.
  unfold IgnoreNotFound. by rewrite Hnf.
Qed.

(** C6: when the read of the Plugin Descriptor answers not-found,
    reconciliation returns the empty result and no error, and no step of the
    cycle belongs to the manifest pipeline: no child document is read, created
    or updated. *)
Theorem Reconcile_plugin_absent (req : Request) (s : Cluster)
    (key : NamespacedName) (err : error) :
  EvGetDataPlugin key (Err err) ∈ trace (Reconcile env req s) →
  apierrors_IsNotFound err = true →
  outcome (Reconcile env req s) = Returns (emptyResult, None)
  ∧ Forall (λ ev, isManifestStep ev = false ∧ isDocumentWrite ev = false)
      (trace (Reconcile env req s)).
Proof.
  rewrite Reconcile_run. simpl.
  destruct (Get_Dataset _ s) as [fetched|e0]; unfold trace at 1; simpl.
  2:{ intros Hin _. apply list_elem_of_singleton in Hin. discriminate. }
  set (valid := isSubsetInfoValid _).
  set (dataset := if valid then fetched else SetState fetched DatasetUnready).
  set (written := if valid then (None, s) else Status_Update dataset s).
  set (status := if valid then [] else [EvStatusUpdate dataset written.1]).
  assert (∀ ev, ev ∈ status → isPluginResolution ev = false
                               ∧ isManifestStep ev = false ∧ isDocumentWrite ev = false)
    as Hstatus.
  { intros ev. unfold status. destruct valid; [by intros ?%elem_of_nil|].
    by intros ->%list_elem_of_singleton. }
  destruct written.1 as [e1|]; unfold trace at 1; simpl.
  { intros [Heq|Hin]%elem_of_cons _; [discriminate|].
    by apply Hstatus in Hin as [? _]. }
  destruct (LoadPlugin _); unfold trace at 1; simpl.
  2:{ intros [Heq|Hin]%elem_of_cons _; [discriminate|].
      by apply Hstatus in Hin as [? _]. }
  destruct (Get_DataPlugin _ written.2) as [dataPlugin|e2];
    unfold trace at 1; simpl.
  - intros [Heq|Hin]%elem_of_cons _; [discriminate|].
    apply elem_of_app in Hin as [Hin|Hin]; [by apply Hstatus in Hin as [? _]|].
    apply elem_of_cons in Hin as [Heq|Hin]; [discriminate|].
    by pose proof (proj1 (Forall_forall _ _) (applyYAML_steps _ _ _) _ Hin).
  - intros [Heq|Hin]%elem_of_cons Hnf; [discriminate|].
    apply elem_of_app in Hin as [Hin|Hin]; [by apply Hstatus in Hin as [? _]|].
    apply list_elem_of_singleton in Hin. injection Hin as -> ->.
    unfold outcome, trace, IgnoreNotFound. simpl. rewrite Hnf. split; [done|].
    constructor; [done|]. apply Forall_app. split; [|by repeat constructor].
    apply Forall_forall. intros ev Hev. by apply Hstatus in Hev as (_ & ? & ?).
Qed.

(** C9, as the code has it: for a Dataset that does not request a plugin, the
    cycle consists of the read of the Dataset and, when the subsets are not
    valid, the status write; no step belongs to the manifest pipeline or
    resolves a plugin.  The cycle returns no error, except the error of the
    status write when that write fails. *)
Theorem Reconcile_without_plugin (req : Request) (s : Cluster) (fetched : Dataset) :
  Get_Dataset (req_NamespacedName req) s = Ok fetched →
  LoadPlugin (Plugin (DatasetMetadata (Spec fetched))) = false →
  let cycle := Reconcile env req s in
  Forall (λ ev, isManifestStep ev = false ∧ isPluginResolution ev = false)
    (trace cycle)
  ∧ if isSubsetInfoValid (Subsets (DatasetInfo (DatasetMetadata (Spec fetched))))
    then outcome cycle = Returns (emptyResult, None)
    else outcome cycle
         = Returns (emptyResult,
                    (Status_Update (SetState fetched DatasetUnready) s).1).
Proof.
  intros Hget Hload cycle. subst cycle. rewrite Reconcile_run. simpl.
  rewrite Hget, Hload.
  destruct (isSubsetInfoValid _); simpl.
  - split; [by repeat constructor|done].
  - destruct (Status_Update _ s) as [[e|] s1]; simpl;
      (split; [by repeat constructor|done]).
Qed.

(** With subsets that are not valid, a status write that succeeds and a
    plugin requested, the cycle goes on to resolve the plugin, on every
    cluster and in every environment. *)
Lemma Reconcile_unready_resolves_plugin (req : Request) (s : Cluster)
    (fetched : Dataset) :
  Get_Dataset (req_NamespacedName req) s = Ok fetched →
  isSubsetInfoValid (Subsets (DatasetInfo (DatasetMetadata (Spec fetched)))) = false →
  (Status_Update (SetState fetched DatasetUnready) s).1 = None →
  LoadPlugin (Plugin (DatasetMetadata (Spec fetched))) = true →
  ∃ res,
    EvGetDataPlugin
      {| Namespace := GetDatatunerxSystemNamespace env;
         Name := Plugin_Name (Plugin (DatasetMetadata (Spec fetched))) |} res
    ∈ trace (Reconcile env req s).
Proof.
  intros Hget Hvalid Hwrite Hload. rewrite Reconcile_run. simpl.
  rewrite Hget, Hvalid, Hwrite, Hload.
  destruct (Get_DataPlugin _ _) as [dataPlugin|err]; eexists;
    unfold trace; simpl; do 2 apply list_elem_of_further; apply list_elem_of_here.
Qed.

(** ** Ownership of what is written *)

Lemma upsertOwnerRef_elem (ref : OwnerReference) (owners : list OwnerReference) :
  ref ∈ controllerutil.upsertOwnerRef ref owners.
Proof.
  induction owners as [|r rest IH]; simpl.
  - apply elem_of_cons. by left.
  - destruct (controllerutil.referSameObject r ref).
    + apply elem_of_cons. by left.
    + apply elem_of_cons. by right.
Qed.

Lemma SetControllerReference_stamps (dataset : Dataset) (controlled obj : Unstructured)
    (scheme : Result GroupVersionKind) :
  controllerutil.SetControllerReference dataset controlled scheme = Ok obj →
  u_Namespace obj = u_Namespace controlled
  ∧ ∃ ref, ref ∈ u_OwnerReferences obj ∧ refersTo dataset ref.
Proof.
  unfold controllerutil.SetControllerReference.
  destruct (controllerutil.validateOwner _ _); [done|].
  destruct scheme as [gvk|]; [|done].
  assert (∀ o, Ok (SetOwnerReferences controlled
                     (controllerutil.upsertOwnerRef
                        (controllerutil.controllerRef gvk dataset)
                        (u_OwnerReferences controlled))) = Ok o →
               u_Namespace o = u_Namespace controlled
               ∧ ∃ ref, ref ∈ u_OwnerReferences o ∧ refersTo dataset ref) as Hset.
  { intros o [= <-]. split; [done|].
    exists (controllerutil.controllerRef gvk dataset).
    split; [apply upsertOwnerRef_elem|done]. }
  destruct (controllerutil.GetControllerOf _); [|apply Hset].
  destruct (negb _); [done|apply Hset].
Qed.

(** C8: every child document that [applyYAML] hands to the store, in a create
    or in an update, is in the namespace of the Dataset and carries a
    controller owner reference with the name and UID of the Dataset. *)
Theorem applyYAML_writes_stamped (path : string) (dataset : Dataset) (s : Cluster) :
  Forall (λ ev, ∀ obj, writtenDocument ev = Some obj → stampedFor dataset obj)
    (trace (applyYAML env path dataset s)).
Proof.
  destruct (applyYAML_run path dataset s)
    as [(o & before & -> & Hbefore)
       |(before & decoded & gvk & obj & _ & Hown & Hbefore & ->)];
    unfold trace at 1; simpl.
  - eapply Forall_impl; [done|]. intros ev [_ Hwrite] obj Hobj.
    unfold isDocumentWrite in Hwrite. by rewrite Hobj in Hwrite.
  - apply SetControllerReference_stamps in Hown as [Hns Howner]. simpl in Hns.
    apply Forall_app. split.
    + eapply Forall_impl; [done|]. intros ev [_ Hwrite] o Ho.
      unfold isDocumentWrite in Hwrite. by rewrite Ho in Hwrite.
    + rewrite applyClient_run. simpl.
      destruct (Get_Unstructured _ _ s) as [existing|err];
        [|destruct (errors_IsNotFound env err)]; unfold trace; simpl.
      * constructor; [done|]. constructor; [|done].
        intros o [= <-]. by split.
      * constructor; [done|]. constructor; [|done].
        intros o [= <-]. by split.
      * by constructor.
Qed.

(** ** The apply engine *)


Lemma SetResourceVersion_same (obj : Unstructured) :
  SetResourceVersion obj (u_ResourceVersion obj) = obj.
Proof. by destruct obj. Qed.


(** ** Parameter assembly *)

(** C10: when the parameter blob decodes to a map, the map handed to the
    renderer has [completeNotifyUrl] bound to the configured URL, whatever the
    blob had under that key, and agrees with the decoded map on every other
    key. *)
Theorem replacePlaceholders_notify_url (yamlStr : string) (dataset : Dataset)
    (s : Cluster) (parameters : gmap string Value) :
  let data := Parameters (Plugin (DatasetMetadata (Spec dataset))) in
  json.Unmarshal data = (Some parameters, None) →
  ∃ used,
    trace (replacePlaceholders env yamlStr dataset s)
    = [EvUnmarshal data (Some parameters) None;
       EvReplaceTemplate yamlStr used (ReplaceTemplate env yamlStr used)]
    ∧ used !! "completeNotifyUrl"
      = Some (VString (config.GetCompleteNotifyURL (environ env)))
    ∧ ∀ key, key ≠ "completeNotifyUrl" → used !! key = parameters !! key.
Proof.
  intros data Hdecode. rewrite replacePlaceholders_run. simpl.
  fold data. rewrite Hdecode. eexists. split; [done|]. split.
  - apply lookup_insert_eq.
  - intros key Hkey. by apply lookup_insert_ne.
Qed.

End Properties.

(** ** Equality tests of documents *)

Lemma Value_eqb_eq : ∀ v w : Value, Value_eqb v w = true → v = w.
Proof.
  fix IH 1.
  intros [|b|a|a|l|l] [|c|b'|b'|m|m]; simpl; try discriminate.
  - done.
  - by intros ->%bool_decide_eq_true.
  - by intros ->%bool_decide_eq_true.
  - by intros ->%bool_decide_eq_true.
  - intros H. f_equal. revert m H.
    induction l as [|x l IHl]; intros [|y m]; simpl; try discriminate; [done|].
    intros [Hx Hl]%andb_prop. f_equal; [by apply IH|by apply IHl].
  - intros H. f_equal. revert m H.
    induction l as [|[k x] l IHl]; intros [|[k' y] m]; simpl; try discriminate; [done|].
    intros [[Hk Hx]%andb_prop Hl]%andb_prop.
    apply bool_decide_eq_true in Hk as ->.
    f_equal; [f_equal; by apply IH|by apply IHl].
Qed.

Lemma Value_eqb_refl : ∀ v : Value, Value_eqb v v = true.
Proof.
  fix IH 1.
  intros [|b|a|a|l|l]; simpl; try by apply bool_decide_eq_true.
  - done.
  - induction l as [|x l IHl]; simpl; [done|]. by rewrite IH, IHl.
  - induction l as [|[k x] l IHl]; simpl; [done|].
    rewrite IH, IHl. by rewrite bool_decide_eq_true_2.
Qed.

Lemma owners_eqb_eq (l m : list OwnerReference) : owners_eqb l m = true → l = m.
Proof.
  revert m. induction l as [|a l IH]; intros [|b m]; simpl; try discriminate; [done|].
  intros [Hab Hlm]%andb_prop. f_equal; [|by apply IH].
  unfold OwnerReference_eqb in Hab.
  repeat (apply andb_prop in Hab as [Hab ?%bool_decide_eq_true]).
  apply bool_decide_eq_true in Hab.
  destruct a, b; simpl in *; by subst.
Qed.

Lemma owners_eqb_refl (l : list OwnerReference) : owners_eqb l l = true.
Proof.
  induction l as [|a l IH]; simpl; [done|]. rewrite IH.
  unfold OwnerReference_eqb. by rewrite !bool_decide_eq_true_2.
Qed.

Lemma Unstructured_eqb_eq (a b : Unstructured) : Unstructured_eqb a b = true → a = b.
Proof.
  unfold Unstructured_eqb, GroupVersionKind_eqb.
  intros [[[[[[[Hg Hv]%andb_prop Hk]%andb_prop Hname]%andb_prop Hns]%andb_prop
            Hrv]%andb_prop Hown]%andb_prop Hcontent]%andb_prop.
  apply bool_decide_eq_true in Hg, Hv, Hk, Hname, Hns, Hrv.
  apply owners_eqb_eq in Hown. apply Value_eqb_eq in Hcontent.
  destruct a as [[]], b as [[]]; simpl in *; by subst.
Qed.

Lemma Unstructured_eqb_refl (a : Unstructured) : Unstructured_eqb a a = true.
Proof.
  unfold Unstructured_eqb, GroupVersionKind_eqb.
  by rewrite !bool_decide_eq_true_2, owners_eqb_refl, Value_eqb_refl.
Qed.

(** ** The reference store keeps the contract *)

Lemma memory_get_put (obj : Unstructured) (s : memory.Cluster) :
  memory.getDocument (u_GroupVersionKind obj) (ObjectKeyOf obj) (memory.putDocument obj s)
  = Ok (SetResourceVersion obj (memory.nextToken s)).
Proof.
  unfold memory.getDocument, memory.putDocument. simpl.
  by rewrite lookup_insert_eq.
Qed.

#[global] Instance memory_contract : StoreContract memory.Cluster apierrors_IsNotFound.
Proof.
  split.
  - intros gvk key s. simpl. unfold memory.getDocument.
    destruct (memory.documents s !! _); [left|right]; by eexists.
  - intros obj s err Hget _. simpl in *. unfold memory.getDocument in Hget.
    exists (memory.putDocument obj s), (memory.nextToken s).
    split; [|apply memory_get_put].
    unfold memory.createDocument.
    by destruct (memory.documents s !! _).
  - intros obj s existing Hget Hrv. simpl in *.
    unfold memory.getDocument in Hget. unfold memory.updateDocument.
    destruct (memory.documents s !! _) as [stored|] eqn:Hstored; [|done].
    injection Hget as ->.
    rewrite bool_decide_eq_true_2 by done.
    destruct (Unstructured_eqb existing obj) eqn:Hsame.
    + apply Unstructured_eqb_eq in Hsame as ->.
      exists s, (u_ResourceVersion obj). split; [done|].
      unfold memory.getDocument. by rewrite Hstored, SetResourceVersion_same.
    + exists (memory.putDocument obj s), (memory.nextToken s).
      split; [done|apply memory_get_put].
  - intros obj s Hget. simpl in *.
    unfold memory.getDocument in Hget. unfold memory.updateDocument.
    destruct (memory.documents s !! _) as [stored|]; [|done].
    injection Hget as ->.
    by rewrite bool_decide_eq_true_2, Unstructured_eqb_refl.
Qed.

(** ** Decoding of the parameters *)


Section Decoding.

Context {Cluster : Type} `{!Client Cluster}.
Variable env : Env.


End Decoding.

(** * The reconciler on the concrete deployment *)


(** The decoder on nested values, on numbers and on texts that are not JSON. *)
Example json_parse_examples :
  json.parse " [[[[1]]], {} , [true, null]] "
  = Some (VArray [VArray [VArray [VArray [VNumber "1"]]]; VObject [];
                  VArray [VBool true; VNull]])
  ∧ json.parse "-0.5E+2" = Some (VNumber "-0.5E+2")
  ∧ json.parse "01" = None
  ∧ json.parse "[1,]" = None
  ∧ json.parse "" = None
  ∧ json.parse "null" = Some VNull
  ∧ (json.Unmarshal (Parameters (Plugin (DatasetMetadata (Spec deployment.ds5))))).1
      ≫= (λ m, m !! "completeNotifyUrl")
    = Some (VString "http://elsewhere").
Proof. vm_compute. by repeat split. Qed.

(** The same cycle on [ds2], whose subset is valid, for comparison. *)
Example Reconcile_ready_applies :
  let cycle :=
    Reconcile deployment.env (deployment.request deployment.ds2) deployment.cluster in
  outcome cycle = Returns (emptyResult, None)
  ∧ List.filter isDocumentWrite (trace cycle) = [EvCreate deployment.job None].
Proof. vm_compute. by repeat split. Qed.

(** Parameters that are the JSON null pass the decoder and then stop the
    cycle with a panic, when the notify URL is stored in the nil map. *)
Example Reconcile_null_parameters_panic :
  outcome (Reconcile deployment.env (deployment.request deployment.ds8)
             deployment.cluster)
  = Panics "assignment to entry in nil map".
Proof. vm_compute. reflexivity. Qed.

(** C5 at a request for a Dataset that is not in the cluster. *)
Lemma Reconcile_dataset_absent_witness :
  Reconcile deployment.env deployment.strayRequest deployment.cluster
  = (Returns (emptyResult, None), deployment.cluster,
     [EvGetDataset (req_NamespacedName deployment.strayRequest)
        (Err memory.notFound)]).
Proof.
  apply (Reconcile_dataset_absent deployment.env deployment.strayRequest
           deployment.cluster memory.notFound).
  - vm_compute. reflexivity.
  - reflexivity.
Defined.

(** C6 at [ds4], whose plugin [p9] is not installed. *)
Lemma Reconcile_plugin_absent_witness :
  let cycle :=
    Reconcile deployment.env (deployment.request deployment.ds4) deployment.cluster in
  outcome cycle = Returns (emptyResult, None)
  ∧ Forall (λ ev, isManifestStep ev = false ∧ isDocumentWrite ev = false) (trace cycle).
Proof.
  apply (Reconcile_plugin_absent deployment.env (deployment.request deployment.ds4)
           deployment.cluster
           {| Namespace := "datatunerx-dev"; Name := "p9" |} memory.notFound).
  - vm_compute. apply list_elem_of_further, list_elem_of_here.
  - reflexivity.
Defined.

(** C9 fails as stated: [ds3] requests no plugin and has no valid subset; with
    status writes refused, the cycle ends with the error of the status
    write. *)
Lemma Reconcile_without_plugin_may_fail :
  Get_Dataset (req_NamespacedName (deployment.request deployment.ds3))
    deployment.readOnlyStatus = Ok deployment.ds3
  ∧ LoadPlugin (Plugin (DatasetMetadata (Spec deployment.ds3))) = false
  ∧ outcome (Reconcile deployment.env (deployment.request deployment.ds3)
               deployment.readOnlyStatus)
    = Returns (emptyResult, Some guarded.forbidden).
Proof. vm_compute. by repeat split. Qed.

(** C9, as the code has it, at [ds3] with status writes refused. *)
Lemma Reconcile_without_plugin_witness :
  let cycle :=
    Reconcile deployment.env (deployment.request deployment.ds3)
      deployment.readOnlyStatus in
  Forall (λ ev, isManifestStep ev = false ∧ isPluginResolution ev = false)
    (trace cycle)
  ∧ if isSubsetInfoValid
         (Subsets (DatasetInfo (DatasetMetadata (Spec deployment.ds3))))
    then outcome cycle = Returns (emptyResult, None)
    else outcome cycle
         = Returns (emptyResult,
                    (Status_Update (SetState deployment.ds3 DatasetUnready)
                       deployment.readOnlyStatus).1).
Proof.
  apply (Reconcile_without_plugin deployment.env (deployment.request deployment.ds3)
           deployment.readOnlyStatus deployment.ds3).
  - vm_compute. reflexivity.
  - reflexivity.
Defined.


(** The two applies of the Job, as they run on the reference store: a create,
    then an update that carries the token the create gave and changes nothing. *)
Example applyClient_twice_run :
  let first := applyClient deployment.env deployment.job deployment.cluster in
  let second := applyClient deployment.env deployment.job (final first) in
  let stored := SetResourceVersion deployment.job "2" in
  trace first
  = [EvGet deployment.jobKind (ObjectKeyOf deployment.job) (Err memory.notFound);
     EvCreate deployment.job None]
  ∧ trace second
    = [EvGet deployment.jobKind (ObjectKeyOf deployment.job) (Ok stored);
       EvUpdate stored None]
  ∧ final second = final first.
Proof. vm_compute. by repeat split. Qed.



(** C10 at [ds5], whose blob sets [completeNotifyUrl] itself. *)
Lemma replacePlaceholders_notify_url_witness :
  ∃ used,
    trace (replacePlaceholders deployment.env deployment.template deployment.ds5
             deployment.cluster)
    = [EvUnmarshal (Parameters (Plugin (DatasetMetadata (Spec deployment.ds5))))
         (Some {[ "completeNotifyUrl" := VString "http://elsewhere" ]}) None;
       EvReplaceTemplate deployment.template used
         (ReplaceTemplate deployment.env deployment.template used)]
    ∧ used !! "completeNotifyUrl"
      = Some (VString (config.GetCompleteNotifyURL (environ deployment.env)))
    ∧ ∀ key, key ≠ "completeNotifyUrl"
             → used !! key
               = ({[ "completeNotifyUrl" := VString "http://elsewhere" ]}
                    : gmap string Value) !! key.
Proof.
  apply (replacePlaceholders_notify_url deployment.env deployment.template
           deployment.ds5 deployment.cluster
           {[ "completeNotifyUrl" := VString "http://elsewhere" ]}).
  vm_compute. reflexivity.
Defined.

(** * Further properties of the code *)

(** ** Subset validation *)

(** Validation of a list in two parts: it is valid when one of the parts is. *)
Theorem isSubsetInfoValid_app (front back : list Subset) :
  isSubsetInfoValid (front ++ back)
  = isSubsetInfoValid front || isSubsetInfoValid back.
Proof.
  induction front as [|subset rest IH]; simpl; [done|].
  by destruct (nonEmpty _ && nonEmpty _).
Qed.

(** The order of the subsets does not matter to validation. *)
Theorem isSubsetInfoValid_Permutation (subsets reordered : list Subset) :
  subsets ≡ₚ reordered →
  isSubsetInfoValid subsets = isSubsetInfoValid reordered.
Proof.
  induction 1 as [|x l l' _ IH|x y l|l l' l'' _ IH1 _ IH2]; simpl.
  - done.
  - by rewrite IH.
  - by destruct (nonEmpty _ && nonEmpty _), (nonEmpty _ && nonEmpty _).
  - by rewrite IH1.
Qed.

Lemma isSubsetInfoValid_Permutation_witness :
  isSubsetInfoValid [deployment.subset "train.csv" ""; deployment.subset "a" "b"]
  = isSubsetInfoValid [deployment.subset "a" "b"; deployment.subset "train.csv" ""].
Proof.
  apply (isSubsetInfoValid_Permutation
           [deployment.subset "train.csv" ""; deployment.subset "a" "b"]
           [deployment.subset "a" "b"; deployment.subset "train.csv" ""]).
  apply Permutation_swap.
Defined.

(** ** The event filter *)

(** An update event reaches the reconciler exactly when both objects are
    Datasets and their plugin references differ: a change of subsets, of
    status or of metadata alone does not. *)
Theorem UpdateFunc_true_iff (e : UpdateEvent) :
  UpdateFunc e = true
  ↔ ∃ oldDataset newDataset,
      ObjectOld e = ObjDataset oldDataset
      ∧ ObjectNew e = ObjDataset newDataset
      ∧ Plugin (DatasetMetadata (Spec oldDataset))
        ≠ Plugin (DatasetMetadata (Spec newDataset)).
Proof.
  unfold UpdateFunc. split.
  - destruct (ObjectOld e) as [old| | |]; try discriminate.
    destruct (ObjectNew e) as [new| | |]; try discriminate.
    intros Hne%negb_true_iff%bool_decide_eq_false. by exists old, new.
  - intros (old & new & -> & -> & Hne).
    by apply negb_true_iff, bool_decide_eq_false.
Qed.

(** ** pkg/config *)


Section MoreProperties.

Context {Cluster : Type} `{!Client Cluster}.
Variable env : Env.

(** ** The reconcile cycle *)

(** [Reconcile] never asks for a requeue: whenever it returns, with or without
    an error, the result is the empty one. *)
Theorem Reconcile_never_requeues (req : Request) (s : Cluster) :
  match outcome (Reconcile env req s) with
  | Returns (result, _) => result = emptyResult
  | Panics _ => True
  end.
Proof.
  rewrite Reconcile_run. simpl.
  destruct (Get_Dataset _ s) as [fetched|err]; [|done].
  destruct (isSubsetInfoValid _); simpl.
  - destruct (LoadPlugin _); [|done].
    destruct (Get_DataPlugin _ s); [|done].
    unfold outcome at 1. simpl. by destruct (outcome _).
  - destruct (Status_Update _ s) as [[err|] s1]; simpl; [done|].
    destruct (LoadPlugin _); [|done].
    destruct (Get_DataPlugin _ s1); [|done].
    unfold outcome at 1. simpl. by destruct (outcome _).
Qed.

(** A read error other than not-found ends the cycle and is returned as it
    is: from the read of the Dataset, with nothing else done; from the read of
    the plugin descriptor, with no step of the manifest pipeline. *)
Theorem Reconcile_read_errors (req : Request) (s : Cluster) :
  (∀ err, Get_Dataset (req_NamespacedName req) s = Err err →
     apierrors_IsNotFound err = false →
     Reconcile env req s
     = (Returns (emptyResult, Some err), s,
        [EvGetDataset (req_NamespacedName req) (Err err)]))
  ∧ (∀ key err, EvGetDataPlugin key (Err err) ∈ trace (Reconcile env req s) →
       apierrors_IsNotFound err = false →
       outcome (Reconcile env req s) = Returns (emptyResult, Some err)
       ∧ Forall (λ ev, isManifestStep ev = false) (trace (Reconcile env req s))).
Proof.
  split.
  { intros err Hget Hnf. rewrite Reconcile_run. simpl. rewrite Hget.
    unfold IgnoreNotFound. by rewrite Hnf. }
  intros key err. rewrite Reconcile_run. simpl.
  destruct (Get_Dataset _ s) as [fetched|e0]; unfold trace at 1; simpl.
  2:{ intros Hin _. apply list_elem_of_singleton in Hin. discriminate. }
  set (valid := isSubsetInfoValid _).
  set (dataset := if valid then fetched else SetState fetched DatasetUnready).
  set (written := if valid then (None, s) else Status_Update dataset s).
  set (status := if valid then [] else [EvStatusUpdate dataset written.1]).
  assert (∀ ev, ev ∈ status → isPluginResolution ev = false
                               ∧ isManifestStep ev = false) as Hstatus.
  { intros ev. unfold status. destruct valid; [by intros ?%elem_of_nil|].
    by intros ->%list_elem_of_singleton. }
  destruct written.1 as [e1|]; unfold trace at 1; simpl.
  { intros [Heq|Hin]%elem_of_cons _; [discriminate|].
    by apply Hstatus in Hin as [? _]. }
  destruct (LoadPlugin _); unfold trace at 1; simpl.
  2:{ intros [Heq|Hin]%elem_of_cons _; [discriminate|].
      by apply Hstatus in Hin as [? _]. }
  destruct (Get_DataPlugin _ written.2) as [dataPlugin|e2];
    unfold trace at 1; simpl.
  - intros [Heq|Hin]%elem_of_cons _; [discriminate|].
    apply elem_of_app in Hin as [Hin|Hin]; [by apply Hstatus in Hin as [? _]|].
    apply elem_of_cons in Hin as [Heq|Hin]; [discriminate|].
    by pose proof (proj1 (Forall_forall _ _) (applyYAML_steps env _ _ _) _ Hin).
  - intros [Heq|Hin]%elem_of_cons Hnf; [discriminate|].
    apply elem_of_app in Hin as [Hin|Hin]; [by apply Hstatus in Hin as [? _]|].
    apply list_elem_of_singleton in Hin. injection Hin as -> ->.
    unfold outcome, trace, IgnoreNotFound. simpl. rewrite Hnf. split; [done|].
    constructor; [done|]. apply Forall_app. split; [|by repeat constructor].
    apply Forall_forall. intros ev Hev. by apply Hstatus in Hev as [_ ?].
Qed.

(** The steps of a cycle: the read of the Dataset, then the status write if
    there is one, then plugin resolution and the manifest pipeline. *)
Lemma Reconcile_trace (req : Request) (s : Cluster) :
  ∃ status rest,
    trace (Reconcile env req s)
    = EvGetDataset (req_NamespacedName req) (Get_Dataset (req_NamespacedName req) s)
      :: status ++ rest
    ∧ (status = []
       ∨ ∃ fetched err,
           Get_Dataset (req_NamespacedName req) s = Ok fetched
           ∧ isSubsetInfoValid
               (Subsets (DatasetInfo (DatasetMetadata (Spec fetched)))) = false
           ∧ status = [EvStatusUpdate (SetState fetched DatasetUnready) err])
    ∧ Forall (λ ev, isStatusWrite ev = false) rest.
Proof.
  assert (∀ l, Forall (λ ev, isManifestStep ev = true) l →
               Forall (λ ev, isStatusWrite ev = false) l) as Hmanifest.
  { intros l Hl. eapply Forall_impl; [done|]. by intros []. }
  rewrite Reconcile_run. simpl.
  destruct (Get_Dataset _ s) as [fetched|e0]; unfold trace at 1; simpl.
  2:{ exists [], []. split; [done|]. split; [by left|done]. }
  destruct (isSubsetInfoValid _) eqn:Hvalid; simpl.
  - exists []. simpl.
    destruct (LoadPlugin _); simpl.
    2:{ exists []. split; [done|]. split; [by left|done]. }
    destruct (Get_DataPlugin _ s); simpl.
    + eexists. split; [done|]. split; [by left|].
      constructor; [done|]. apply Hmanifest, applyYAML_steps.
    + eexists. split; [done|]. split; [by left|]. by repeat constructor.
  - destruct (Status_Update _ s) as [[e1|] s1] eqn:Hwrite; simpl.
    { exists [EvStatusUpdate (SetState fetched DatasetUnready) (Some e1)], [].
      split; [done|]. split; [right; by eexists _, _|done]. }
    exists [EvStatusUpdate (SetState fetched DatasetUnready) None].
    destruct (LoadPlugin _); simpl.
    2:{ exists []. split; [done|]. split; [right; by eexists _, _|done]. }
    destruct (Get_DataPlugin _ s1); simpl.
    + eexists. split; [done|]. split; [right; by eexists _, _|].
      constructor; [done|]. apply Hmanifest, applyYAML_steps.
    + eexists. split; [done|]. split; [right; by eexists _, _|].
      by repeat constructor.
Qed.

Lemma filter_none (l : list Event) (f : Event → bool) :
  Forall (λ ev, f ev = false) l → List.filter f l = [].
Proof. induction 1 as [|ev l Hev _ IH]; simpl; [done|]. by rewrite Hev. Qed.

(** The only status [Reconcile] ever writes is UNREADY: a cycle has at most
    one status write, it belongs to a Dataset whose subsets are not valid, and
    it carries the state UNREADY.  No cycle writes READY. *)
Theorem Reconcile_status_writes (req : Request) (s : Cluster) :
  (List.length (List.filter isStatusWrite (trace (Reconcile env req s))) ≤ 1)%nat
  ∧ Forall (λ ev, ∀ dataset err, ev = EvStatusUpdate dataset err →
              State (Status dataset) = DatasetUnready
              ∧ isSubsetInfoValid
                  (Subsets (DatasetInfo (DatasetMetadata (Spec dataset)))) = false)
      (trace (Reconcile env req s)).
Proof.
  destruct (Reconcile_trace req s) as (status & rest & -> & Hstatus & Hrest).
  split.
  - simpl. rewrite List.filter_app, (filter_none rest) by done.
    destruct Hstatus as [->|(fetched & err & _ & _ & ->)]; simpl; lia.
  - constructor; [intros ?? [=]|]. apply Forall_app. split.
    + destruct Hstatus as [->|(fetched & err & _ & Hvalid & ->)]; [done|].
      constructor; [|done]. by intros dataset e [= <- _].
    + eapply Forall_impl; [done|]. by intros ev Hev dataset err ->.
Qed.

(** ** Parameter assembly *)

(** [replacePlaceholders] panics exactly when the parameter blob is the JSON
    null: the decoder leaves the map nil and reports no error, and the store
    of [completeNotifyUrl] into the nil map panics before anything is
    rendered. *)
Theorem replacePlaceholders_panics_iff (yamlStr : string) (dataset : Dataset)
    (s : Cluster) :
  let data := Parameters (Plugin (DatasetMetadata (Spec dataset))) in
  ((∃ msg, outcome (replacePlaceholders env yamlStr dataset s) = Panics msg)
   ↔ json.parse data = Some VNull)
  ∧ (json.parse data = Some VNull →
       replacePlaceholders env yamlStr dataset s
       = (Panics "assignment to entry in nil map", s, [EvUnmarshal data None None])).
Proof.
  intros data. rewrite replacePlaceholders_run. simpl. fold data.
  unfold json.Unmarshal.
  destruct (json.parse data) as [v|]; [destruct v|]; unfold outcome; simpl;
    (split; [split; [by intros [msg [=]]|try done]|try done]).
  by eexists.
Qed.

(** ** The apply engine *)

(** What [applyClient] sends to the store is the document it was given, but
    for the version token: kind, name, namespace, owners and content are
    untouched, in a create as in an update; and it sends at most one write. *)
Theorem applyClient_sends_document (obj : Unstructured) (s : Cluster) :
  (List.length (List.filter isDocumentWrite (trace (applyClient env obj s))) ≤ 1)%nat
  ∧ Forall (λ ev, ∀ sent, writtenDocument ev = Some sent →
              SetResourceVersion sent (u_ResourceVersion obj) = obj)
      (trace (applyClient env obj s)).
Proof.
  rewrite applyClient_run. simpl.
  destruct (Get_Unstructured _ _ s) as [existing|err];
    [|destruct (errors_IsNotFound env err)]; unfold trace; simpl.
  - split; [lia|]. constructor; [done|]. constructor; [|done].
    intros sent [= <-]. by destruct obj.
  - split; [lia|]. constructor; [done|]. constructor; [|done].
    intros sent [= <-]. by destruct obj.
  - split; [lia|]. by constructor.
Qed.

(** ** The apply pipeline *)

(** The two ways [applyYAML] runs, on every cluster alike: it ends before the
    store is reached, with an error or with the nil-map panic and the cluster
    as it was; or it builds a document stamped for the Dataset, hands it to
    [applyClient] and ends as that call does. *)
Lemma applyYAML_stages (path : string) (dataset : Dataset) :
  (∃ o before,
      (∀ s : Cluster, applyYAML env path dataset s = (o, s, before))
      ∧ Forall (λ ev, isManifestStep ev = true ∧ isDocumentWrite ev = false) before
      ∧ ((∃ err, o = Returns (Some err))
         ∨ (o = Panics "assignment to entry in nil map"
            ∧ json.parse (Parameters (Plugin (DatasetMetadata (Spec dataset))))
              = Some VNull)))
  ∨ (∃ before obj,
      (∀ s : Cluster,
         applyYAML env path dataset s
         = (outcome (applyClient env obj s), final (applyClient env obj s),
            before ++ trace (applyClient env obj s)))
      ∧ Forall (λ ev, isManifestStep ev = true ∧ isDocumentWrite ev = false) before
      ∧ stampedFor dataset obj).
Proof.
  destruct (ReadFile env path) as [yamlFile|err] eqn:Hfile.
  2:{ left. exists (Returns (Some err)), [EvReadFile path (Err err)].
      split; [|split; [by repeat constructor|left; by eexists]].
      intros s. unfold applyYAML. run. by rewrite Hfile. }
  set (data := Parameters (Plugin (DatasetMetadata (Spec dataset)))).
  destruct (json.Unmarshal data) as [[parameters|] [err|]] eqn:Hdecode.
  1:{ left. exists (Returns (Some err)),
        [EvReadFile path (Ok yamlFile); EvUnmarshal data (Some parameters) (Some err)].
      split; [|split; [by repeat constructor|left; by eexists]].
      intros s. unfold applyYAML. run. rewrite Hfile. simpl.
      rewrite replacePlaceholders_run. simpl. fold data. by rewrite Hdecode. }
  2:{ left. exists (Returns (Some err)),
        [EvReadFile path (Ok yamlFile); EvUnmarshal data None (Some err)].
      split; [|split; [by repeat constructor|left; by eexists]].
      intros s. unfold applyYAML. run. rewrite Hfile. simpl.
      rewrite replacePlaceholders_run. simpl. fold data. by rewrite Hdecode. }
  2:{ left. exists (Panics "assignment to entry in nil map"),
        [EvReadFile path (Ok yamlFile); EvUnmarshal data None None].
      split; [|split; [by repeat constructor|right; split; [done|]]].
      - intros s. unfold applyYAML. run. rewrite Hfile. simpl.
        rewrite replacePlaceholders_run. simpl. fold data. by rewrite Hdecode.
      - unfold json.Unmarshal in Hdecode.
        destruct (json.parse data) as [v|]; [|done]. by destruct v. }
  set (used := <["completeNotifyUrl" :=
                   VString (config.GetCompleteNotifyURL (environ env))]> parameters).
  assert (∀ s : Cluster,
            replacePlaceholders env yamlFile dataset s
            = (Returns match ReplaceTemplate env yamlFile used with
                       | Ok replacedYamlStr => (replacedYamlStr, None)
                       | Err err => ("", Some err)
                       end, s,
               [EvUnmarshal data (Some parameters) None;
                EvReplaceTemplate yamlFile used (ReplaceTemplate env yamlFile used)]))
    as Hreplace.
  { intros s. rewrite replacePlaceholders_run. simpl. fold data. by rewrite Hdecode. }
  destruct (ReplaceTemplate env yamlFile used) as [replaced|err] eqn:Hrender.
  2:{ left. exists (Returns (Some err)),
        [EvReadFile path (Ok yamlFile); EvUnmarshal data (Some parameters) None;
         EvReplaceTemplate yamlFile used (Err err)].
      split; [|split; [by repeat constructor|left; by eexists]].
      intros s. unfold applyYAML. run. rewrite Hfile. simpl. by rewrite Hreplace. }
  destruct (Decode env replaced) as [decoded|err] eqn:Hdecoded.
  2:{ left. exists (Returns (Some err)),
        [EvReadFile path (Ok yamlFile); EvUnmarshal data (Some parameters) None;
         EvReplaceTemplate yamlFile used (Ok replaced); EvDecode replaced (Err err)].
      split; [|split; [by repeat constructor|left; by eexists]].
      intros s. unfold applyYAML. run. rewrite Hfile. simpl. rewrite Hreplace.
      simpl. by rewrite Hdecoded. }
  destruct (controllerutil.SetControllerReference dataset
              (SetNamespace decoded (GetNamespace dataset)) (Scheme env))
    as [obj|err] eqn:Hown.
  2:{ left. exists (Returns (Some err)),
        [EvReadFile path (Ok yamlFile); EvUnmarshal data (Some parameters) None;
         EvReplaceTemplate yamlFile used (Ok replaced); EvDecode replaced (Ok decoded)].
      split; [|split; [by repeat constructor|left; by eexists]].
      intros s. unfold applyYAML. run. rewrite Hfile. simpl. rewrite Hreplace.
      simpl. rewrite Hdecoded. simpl. by rewrite Hown. }
  right.
  exists [EvReadFile path (Ok yamlFile); EvUnmarshal data (Some parameters) None;
          EvReplaceTemplate yamlFile used (Ok replaced); EvDecode replaced (Ok decoded)],
    obj.
  split; [|split; [by repeat constructor|]].
  - intros s. unfold applyYAML. run. rewrite Hfile. simpl. rewrite Hreplace.
    simpl. rewrite Hdecoded. simpl. rewrite Hown. simpl.
    destruct (applyClient env obj s) as [[[[e|]|msg] s'] t]; simpl; try done.
    all: by rewrite app_nil_r.
  - by apply SetControllerReference_stamps in Hown.
Qed.

Lemma last_elem (l : list Event) (ev : Event) : last l = Some ev → ev ∈ l.
Proof.
  intros (l' & ->)%last_Some. apply elem_of_app. right. apply list_elem_of_here.
Qed.

(** [applyYAML] writes at most one child document, the write is its last
    step, and a run without a write leaves the cluster as it was: a failure
    before the store is reached changes nothing. *)
Theorem applyYAML_single_write (path : string) (dataset : Dataset) (s : Cluster) :
  let applied := applyYAML env path dataset s in
  (List.length (List.filter isDocumentWrite (trace applied)) ≤ 1)%nat
  ∧ (List.filter isDocumentWrite (trace applied) = [] → final applied = s)
  ∧ (∀ ev, ev ∈ trace applied → isDocumentWrite ev = true →
       last (trace applied) = Some ev).
Proof.
  intros applied. subst applied.
  destruct (applyYAML_stages path dataset)
    as [(o & before & -> & Hbefore & _)|(before & obj & -> & Hbefore & _)];
    unfold trace at 1 2 3 4, final at 1; simpl.
  - rewrite filter_none by (eapply Forall_impl; [done|]; by intros ? [_ ?]).
    split; [simpl; lia|]. split; [done|].
    intros ev Hev Hwrite.
    apply (proj1 (Forall_forall _ _) Hbefore) in Hev as [_ Hno]. congruence.
  - rewrite List.filter_app.
    rewrite (filter_none before) by (eapply Forall_impl; [done|]; by intros ? [_ ?]).
    simpl. rewrite applyClient_run. simpl.
    destruct (Get_Unstructured _ _ s) as [existing|err];
      [|destruct (errors_IsNotFound env err)]; unfold trace, final; simpl.
    + split; [lia|]. split; [done|]. intros ev Hev Hwrite. rewrite last_app. simpl.
      apply elem_of_app in Hev as [Hev|Hev].
      { apply (proj1 (Forall_forall _ _) Hbefore) in Hev as [_ Hno]. congruence. }
      apply elem_of_cons in Hev as [->|Hev]; [done|].
      by apply list_elem_of_singleton in Hev as ->.
    + split; [lia|]. split; [done|]. intros ev Hev Hwrite. rewrite last_app. simpl.
      apply elem_of_app in Hev as [Hev|Hev].
      { apply (proj1 (Forall_forall _ _) Hbefore) in Hev as [_ Hno]. congruence. }
      apply elem_of_cons in Hev as [->|Hev]; [done|].
      by apply list_elem_of_singleton in Hev as ->.
    + split; [lia|]. split; [done|]. intros ev Hev Hwrite.
      apply elem_of_app in Hev as [Hev|Hev].
      { apply (proj1 (Forall_forall _ _) Hbefore) in Hev as [_ Hno]. congruence. }
      by apply list_elem_of_singleton in Hev as ->.
Qed.

(** [applyYAML] returns nil exactly when its last step is a create or an
    update that the store accepted: every other run returns an error or
    panics. *)
Theorem applyYAML_success_iff (path : string) (dataset : Dataset) (s : Cluster) :
  let applied := applyYAML env path dataset s in
  outcome applied = Returns None
  ↔ ∃ obj, last (trace applied) = Some (EvCreate obj None)
           ∨ last (trace applied) = Some (EvUpdate obj None).
Proof.
  intros applied. subst applied.
  destruct (applyYAML_stages path dataset)
    as [(o & before & -> & Hbefore & Ho)|(before & obj & -> & Hbefore & _)];
    unfold trace, outcome; simpl.
  - split.
    + by destruct Ho as [[err ->]|[-> _]].
    + intros [w [Hlast|Hlast]]; apply last_elem in Hlast;
        by apply (proj1 (Forall_forall _ _) Hbefore) in Hlast as [_ ?].
  - rewrite applyClient_run. simpl.
    destruct (Get_Unstructured _ _ s) as [existing|err];
      [|destruct (errors_IsNotFound env err)]; simpl; rewrite last_app; simpl.
    + destruct (Update _ s).1; split; try done.
      * by intros [w [[=]|[=]]].
      * intros _. eexists. by right.
    + destruct (Create _ s).1; split; try done.
      * by intros [w [[=]|[=]]].
      * intros _. eexists. by left.
    + split; [done|]. by intros [w [[=]|[=]]].
Qed.


(** The one panic of the reconciler: when [Reconcile] panics, the Dataset
    requests a plugin and its parameter blob is the JSON null; the panic is
    the store into the nil map, and no child document was written before
    it. *)
Theorem Reconcile_panic_cause (req : Request) (s : Cluster) (msg : string) :
  outcome (Reconcile env req s) = Panics msg →
  ∃ fetched,
    Get_Dataset (req_NamespacedName req) s = Ok fetched
    ∧ LoadPlugin (Plugin (DatasetMetadata (Spec fetched))) = true
    ∧ json.parse (Parameters (Plugin (DatasetMetadata (Spec fetched)))) = Some VNull
    ∧ msg = "assignment to entry in nil map"
    ∧ Forall (λ ev, isDocumentWrite ev = false) (trace (Reconcile env req s)).
Proof.
  assert (∀ path dataset (s1 : Cluster) m,
            outcome (applyYAML env path dataset s1) = Panics m →
            json.parse (Parameters (Plugin (DatasetMetadata (Spec dataset))))
            = Some VNull
            ∧ m = "assignment to entry in nil map"
            ∧ Forall (λ ev, isDocumentWrite ev = false)
                (trace (applyYAML env path dataset s1))) as Hpanic.
  { intros path dataset s1 m.
    destruct (applyYAML_stages path dataset)
      as [(o & before & -> & Hbefore & Ho)|(before & obj & -> & _ & _)];
      unfold outcome, trace; simpl.
    - destruct Ho as [[err ->]|[-> Hnull]]; [done|]. intros [= <-].
      split; [done|]. split; [done|].
      eapply Forall_impl; [done|]. by intros ? [_ ?].
    - rewrite applyClient_run. simpl.
      by destruct (Get_Unstructured _ _ s1); [|destruct (errors_IsNotFound env _)]. }
  rewrite Reconcile_run. simpl.
  destruct (Get_Dataset _ s) as [fetched|e0]; [|done].
  destruct (isSubsetInfoValid _); simpl.
  - destruct (LoadPlugin _) eqn:Hload; [|done].
    destruct (Get_DataPlugin _ s); [|done].
    unfold outcome at 1, trace at 1. simpl.
    destruct (outcome (applyYAML _ _ _ _)) as [e|m] eqn:Happlied; [done|].
    intros [= <-]. apply Hpanic in Happlied as (Hnull & -> & Hwrites).
    exists fetched. repeat split; try done. by repeat constructor.
  - destruct (Status_Update _ s) as [[err|] s1]; simpl; [done|].
    destruct (LoadPlugin _) eqn:Hload; [|done].
    destruct (Get_DataPlugin _ s1); [|done].
    unfold outcome at 1, trace at 1. simpl.
    destruct (outcome (applyYAML _ _ _ _)) as [e|m] eqn:Happlied; [done|].
    intros [= <-]. apply Hpanic in Happlied as (Hnull & -> & Hwrites).
    exists fetched. repeat split; try done. by repeat constructor.
Qed.

(** [applyYAML] reads of the Dataset only its name, namespace, UID and spec. *)
Lemma applyYAML_sameButStatus (path : string) (a b : Dataset) (s : Cluster) :
  sameButStatus a b → applyYAML env path a s = applyYAML env path b s.
Proof.
  intros (Hname & Hns & Huid & Hspec).
  unfold applyYAML, replacePlaceholders, controllerutil.SetControllerReference,
    controllerutil.validateOwner, controllerutil.controllerRef.
  by rewrite ?Hname, ?Hns, ?Huid, ?Hspec.
Qed.

End MoreProperties.

(** ** The reconciler on the reference store *)

Section OnTheReferenceStore.

Variable env : Env.

Lemma memory_applyClient_frame (obj : Unstructured) (s : memory.Cluster) :
  memory.datasets (final (applyClient env obj s)) = memory.datasets s
  ∧ memory.dataplugins (final (applyClient env obj s)) = memory.dataplugins s.
Proof.
  rewrite applyClient_run. simpl.
  destruct (memory.getDocument _ _ s) as [existing|err];
    [|destruct (errors_IsNotFound env err)]; unfold final; simpl; [| |done].
  - unfold memory.updateDocument.
    destruct (memory.documents s !! _); [|done].
    destruct (bool_decide _); [|done]. by destruct (Unstructured_eqb _ _).
  - unfold memory.createDocument. by destruct (memory.documents s !! _).
Qed.

(** Applying a document that the store holds, under whatever token, changes
    nothing. *)
Lemma memory_applyClient_stored (obj : Unstructured) (s : memory.Cluster) (token : string) :
  memory.getDocument (u_GroupVersionKind obj) (ObjectKeyOf obj) s
  = Ok (SetResourceVersion obj token) →
  final (applyClient env obj s) = s.
Proof.
  intros Hget. rewrite applyClient_run. simpl. rewrite Hget. unfold final. simpl.
  pose proof (@update_same _ _ _ memory_contract
                (SetResourceVersion obj token) s Hget) as Hnoop.
  simpl in Hnoop. unfold SetResourceVersion in Hnoop |- *. simpl in Hnoop |- *.
  by rewrite Hnoop.
Qed.

Lemma memory_applyClient_again (obj : Unstructured) (s : memory.Cluster) :
  final (applyClient env obj (final (applyClient env obj s)))
  = final (applyClient env obj s).
Proof.
  destruct (memory.getDocument (u_GroupVersionKind obj) (ObjectKeyOf obj) s)
    as [existing|err] eqn:Hget.
  - destruct (@update_current _ _ _ memory_contract
                (SetResourceVersion obj (u_ResourceVersion existing))
                s existing Hget eq_refl) as (s' & token & Hupdate & Hread).
    assert (final (applyClient env obj s) = s') as ->.
    { rewrite applyClient_run. simpl. rewrite Hget. unfold final. simpl.
      simpl in Hupdate. by rewrite Hupdate. }
    by apply (memory_applyClient_stored obj s' token).
  - destruct (errors_IsNotFound env err) eqn:Hnf.
    + assert (apierrors_IsNotFound err = true) as Hapi.
      { unfold memory.getDocument in Hget.
        destruct (memory.documents s !! _); [done|]. by injection Hget as <-. }
      destruct (@create_absent _ _ _ memory_contract obj s err Hget Hapi) as (s' & token & Hcreate & Hread).
      assert (final (applyClient env obj s) = s') as ->.
      { rewrite applyClient_run. simpl. rewrite Hget, Hnf. unfold final. simpl.
        simpl in Hcreate. by rewrite Hcreate. }
      by apply (memory_applyClient_stored obj s' token).
    + assert (final (applyClient env obj s) = s) as Hsame.
      { rewrite applyClient_run. simpl. by rewrite Hget, Hnf. }
      by rewrite !Hsame.
Qed.

Lemma memory_applyYAML_frame (path : string) (dataset : Dataset) (s : memory.Cluster) :
  memory.datasets (final (applyYAML env path dataset s)) = memory.datasets s
  ∧ memory.dataplugins (final (applyYAML env path dataset s)) = memory.dataplugins s.
Proof.
  destruct (applyYAML_stages (Cluster := memory.Cluster) env path dataset)
    as [(o & before & Hrun & _)|(before & obj & Hrun & _)];
    rewrite !Hrun.
  - done.
  - apply memory_applyClient_frame.
Qed.

Lemma memory_applyYAML_again (path : string) (dataset : Dataset) (s : memory.Cluster) :
  final (applyYAML env path dataset (final (applyYAML env path dataset s)))
  = final (applyYAML env path dataset s).
Proof.
  destruct (applyYAML_stages (Cluster := memory.Cluster) env path dataset)
    as [(o & before & Hrun & _)|(before & obj & Hrun & _)].
  - by rewrite !Hrun.
  - rewrite !Hrun. apply memory_applyClient_again.
Qed.

Lemma sameButStatus_refl (d : Dataset) : sameButStatus d d.
Proof. by repeat split. Qed.

(** A status write changes, at most, the status and the version token of one
    Dataset. *)
Lemma memory_updateStatus_frame (dataset : Dataset) (s : memory.Cluster) :
  let s' := (memory.updateStatus dataset s).2 in
  memory.dataplugins s' = memory.dataplugins s
  ∧ ∀ key,
      match memory.datasets s !! key, memory.datasets s' !! key with
      | Some d, Some d' => sameButStatus d d'
      | None, None => True
      | _, _ => False
      end.
Proof.
  assert (∀ key,
            match memory.datasets s !! key, memory.datasets s !! key with
            | Some d, Some d' => sameButStatus d d'
            | None, None => True
            | _, _ => False
            end) as Hsame.
  { intros key. destruct (memory.datasets s !! key); [apply sameButStatus_refl|done]. }
  unfold memory.updateStatus.
  destruct (memory.datasets s !! (GetNamespace dataset, GetName dataset))
    as [stored|] eqn:Hstored; simpl; [|done].
  destruct (bool_decide _); simpl; [|done].
  destruct (memory.DatasetState_eqb _ _); simpl; [done|].
  split; [done|]. intros key.
  destruct (decide (key = (GetNamespace dataset, GetName dataset))) as [->|Hne].
  - rewrite Hstored, lookup_insert_eq. by repeat split.
  - rewrite lookup_insert_ne by done. apply Hsame.
Qed.

(** A cycle on a Dataset whose status needs no write: the subsets are valid,
    or the status is UNREADY already. *)
Lemma memory_Reconcile_settled (req : Request) (s : memory.Cluster) (d : Dataset) :
  memory.datasets s !! memory.nameKey (req_NamespacedName req) = Some d →
  memory.nameKey (req_NamespacedName req) = (GetNamespace d, GetName d) →
  isSubsetInfoValid (Subsets (DatasetInfo (DatasetMetadata (Spec d)))) = true
  ∨ State (Status d) = DatasetUnready →
  final (Reconcile env req s)
  = if LoadPlugin (Plugin (DatasetMetadata (Spec d))) then
      match memory.dataplugins s
            !! memory.nameKey
                 {| Namespace := GetDatatunerxSystemNamespace env;
                    Name := Plugin_Name (Plugin (DatasetMetadata (Spec d))) |} with
      | Some dataPlugin =>
          final (applyYAML env
                   (filepath_Join env
                      ["plugins"; DatasetClass (DataPlugin_Spec dataPlugin);
                       Provider (DataPlugin_Spec dataPlugin); "plugin.yaml"])
                   d s)
      | None => s
      end
    else s.
Proof.
  intros Hlookup Hkey Hsettled. rewrite Reconcile_run. simpl.
  unfold memory.getDataset. rewrite Hlookup.
  destruct (isSubsetInfoValid _) eqn:Hvalid; simpl.
  - destruct (LoadPlugin _); [|done].
    unfold memory.getDataPlugin. by destruct (memory.dataplugins s !! _).
  - destruct Hsettled as [?|Hstate]; [done|].
    assert (SetState d DatasetUnready = d) as ->.
    { destruct d as [m sp [st]]. simpl in Hstate. by subst. }
    assert (memory.updateStatus d s = (None, s)) as ->.
    { unfold memory.updateStatus. rewrite <- Hkey, Hlookup.
      rewrite bool_decide_eq_true_2 by done. by rewrite Hstate. }
    simpl. destruct (LoadPlugin _); [|done].
    unfold memory.getDataPlugin. by destruct (memory.dataplugins s !! _).
Qed.

Lemma memory_Reconcile_settled_again (req : Request) (s : memory.Cluster) (d : Dataset) :
  memory.datasets s !! memory.nameKey (req_NamespacedName req) = Some d →
  memory.nameKey (req_NamespacedName req) = (GetNamespace d, GetName d) →
  isSubsetInfoValid (Subsets (DatasetInfo (DatasetMetadata (Spec d)))) = true
  ∨ State (Status d) = DatasetUnready →
  final (Reconcile env req (final (Reconcile env req s)))
  = final (Reconcile env req s).
Proof.
  intros Hlookup Hkey Hsettled.
  pose proof (memory_Reconcile_settled req s d Hlookup Hkey Hsettled) as Hfirst.
  set (s1 := final (Reconcile env req s)) in *.
  assert (memory.datasets s1 = memory.datasets s
          ∧ memory.dataplugins s1 = memory.dataplugins s) as [Hdatasets Hplugins].
  { rewrite Hfirst. destruct (LoadPlugin _); [|done].
    destruct (memory.dataplugins s !! _); [|done]. apply memory_applyYAML_frame. }
  rewrite (memory_Reconcile_settled req s1 d); [|by rewrite Hdatasets|done..].
  rewrite Hplugins. destruct (LoadPlugin _); [|done].
  destruct (memory.dataplugins s !! _); [|done].
  rewrite Hfirst. apply memory_applyYAML_again.
Qed.

(** A cycle that has to write the status ends as the cycle that starts from
    the state the status write leaves, and in that state the status needs no
    write. *)
Lemma memory_Reconcile_unsettled (req : Request) (s : memory.Cluster) (d : Dataset) :
  memory.datasets s !! memory.nameKey (req_NamespacedName req) = Some d →
  memory.nameKey (req_NamespacedName req) = (GetNamespace d, GetName d) →
  isSubsetInfoValid (Subsets (DatasetInfo (DatasetMetadata (Spec d)))) = false →
  State (Status d) ≠ DatasetUnready →
  ∃ sa d',
    final (Reconcile env req s) = final (Reconcile env req sa)
    ∧ memory.datasets sa !! memory.nameKey (req_NamespacedName req) = Some d'
    ∧ memory.nameKey (req_NamespacedName req) = (GetNamespace d', GetName d')
    ∧ State (Status d') = DatasetUnready.
Proof.
  intros Hlookup Hkey Hvalid Hstate.
  set (d' := {| Dataset_Meta :=
                  {| meta_Name := meta_Name (Dataset_Meta d);
                     meta_Namespace := meta_Namespace (Dataset_Meta d);
                     meta_UID := meta_UID (Dataset_Meta d);
                     meta_ResourceVersion := memory.nextToken s |};
                Spec := Spec d;
                Status := {| State := DatasetUnready |} |}).
  set (sa := {| memory.datasets :=
                  <[memory.nameKey (req_NamespacedName req) := d']> (memory.datasets s);
                memory.dataplugins := memory.dataplugins s;
                memory.documents := memory.documents s;
                memory.revision := (memory.revision s + 1)%N |}).
  assert (memory.updateStatus (SetState d DatasetUnready) s = (None, sa)) as Hwrite.
  { unfold memory.updateStatus. simpl.
    change (GetNamespace (SetState d DatasetUnready), GetName (SetState d DatasetUnready))
      with (GetNamespace d, GetName d).
    rewrite <- Hkey, Hlookup. simpl. rewrite bool_decide_eq_true_2 by done.
    by destruct (State (Status d)). }
  assert (memory.datasets sa !! memory.nameKey (req_NamespacedName req) = Some d')
    as Hlookup' by apply lookup_insert_eq.
  exists sa, d'. split; [|by repeat split].
  rewrite (memory_Reconcile_settled req sa d' Hlookup' Hkey) by (by right).
  rewrite Reconcile_run. simpl. unfold memory.getDataset. rewrite Hlookup, Hvalid.
  rewrite Hwrite. simpl.
  destruct (LoadPlugin _); [|done].
  unfold memory.getDataPlugin. simpl.
  destruct (memory.dataplugins s !! _); [|done]. simpl.
  by rewrite (applyYAML_sameButStatus env _ (SetState d DatasetUnready) d').
Qed.

(** On the reference store, with every Dataset stored under its own name, a
    second reconcile cycle for the same request changes nothing: the state
    after two cycles is the state after one, whether the first one wrote the
    status, created or updated the child document, failed or panicked. *)
Theorem memory_Reconcile_again (req : Request) (s : memory.Cluster) :
  keyedByName s →
  final (Reconcile env req (final (Reconcile env req s)))
  = final (Reconcile env req s).
Proof.
  intros Hkeyed.
  destruct (memory.datasets s !! memory.nameKey (req_NamespacedName req))
    as [d|] eqn:Hlookup.
  - pose proof (Hkeyed _ _ Hlookup) as Hkey.
    destruct (isSubsetInfoValid (Subsets (DatasetInfo (DatasetMetadata (Spec d)))))
      eqn:Hvalid.
    { apply (memory_Reconcile_settled_again req s d); [done..|by left]. }
    assert (State (Status d) = DatasetUnready ∨ State (Status d) ≠ DatasetUnready)
      as [Hstate|Hstate] by (destruct (State (Status d)); auto).
    { apply (memory_Reconcile_settled_again req s d); [done..|by right]. }
    destruct (memory_Reconcile_unsettled req s d Hlookup Hkey Hvalid Hstate)
      as (sa & d' & -> & Hlookup' & Hkey' & Hstate').
    apply (memory_Reconcile_settled_again req sa d'); [done..|by right].
  - assert (final (Reconcile env req s) = s) as Hsame.
    { rewrite Reconcile_run. simpl. unfold memory.getDataset. by rewrite Hlookup. }
    by rewrite !Hsame.
Qed.

(** On the reference store a reconcile cycle leaves the plugin descriptors as
    they are, creates and deletes no Dataset, and changes of a Dataset at most
    the status and the version token; so the update event that its own status
    write causes does not pass the event filter. *)
Theorem memory_Reconcile_keeps_datasets (req : Request) (s : memory.Cluster) :
  let s' := final (Reconcile env req s) in
  memory.dataplugins s' = memory.dataplugins s
  ∧ ∀ key,
      match memory.datasets s !! key, memory.datasets s' !! key with
      | Some d, Some d' =>
          sameButStatus d d'
          ∧ UpdateFunc {| ObjectOld := ObjDataset d; ObjectNew := ObjDataset d' |}
            = false
      | None, None => True
      | _, _ => False
      end.
Proof.
  assert (∀ s1 : memory.Cluster,
            memory.dataplugins s1 = memory.dataplugins s
            ∧ (∀ key,
                 match memory.datasets s !! key, memory.datasets s1 !! key with
                 | Some d, Some d' => sameButStatus d d'
                 | None, None => True
                 | _, _ => False
                 end) →
            memory.dataplugins s1 = memory.dataplugins s
            ∧ ∀ key,
                match memory.datasets s !! key, memory.datasets s1 !! key with
                | Some d, Some d' =>
                    sameButStatus d d'
                    ∧ UpdateFunc {| ObjectOld := ObjDataset d;
                                    ObjectNew := ObjDataset d' |} = false
                | None, None => True
                | _, _ => False
                end) as Hfilter.
  { intros s1 [Hplugins Hdatasets]. split; [done|]. intros key.
    specialize (Hdatasets key).
    destruct (memory.datasets s !! key) as [d|],
      (memory.datasets s1 !! key) as [d'|]; try done.
    split; [done|]. destruct Hdatasets as (_ & _ & _ & Hspec).
    unfold UpdateFunc. simpl. rewrite Hspec.
    by rewrite bool_decide_eq_true_2. }
  assert (∀ key,
            match memory.datasets s !! key, memory.datasets s !! key with
            | Some d, Some d' => sameButStatus d d'
            | None, None => True
            | _, _ => False
            end) as Hsame.
  { intros key. destruct (memory.datasets s !! key); [apply sameButStatus_refl|done]. }
  intros s'. subst s'. apply Hfilter. rewrite Reconcile_run. simpl.
  destruct (memory.getDataset _ s) as [fetched|e0]; [|done].
  set (valid := isSubsetInfoValid _).
  set (dataset := if valid then fetched else SetState fetched DatasetUnready).
  set (written := if valid then (None, s) else memory.updateStatus dataset s).
  assert (memory.dataplugins written.2 = memory.dataplugins s
          ∧ ∀ key,
              match memory.datasets s !! key, memory.datasets written.2 !! key with
              | Some d, Some d' => sameButStatus d d'
              | None, None => True
              | _, _ => False
              end) as Hwritten.
  { unfold written. destruct valid; [done|]. apply memory_updateStatus_frame. }
  destruct written.1; [done|].
  destruct (LoadPlugin _); [|done].
  destruct (memory.getDataPlugin _ written.2); [|done].
  destruct (memory_applyYAML_frame
              (filepath_Join env
                 ["plugins"; DatasetClass (DataPlugin_Spec a);
                  Provider (DataPlugin_Spec a); "plugin.yaml"]) dataset written.2)
    as [Hdatasets Hplugins].
  unfold final in Hdatasets, Hplugins |- *. simpl.
  by rewrite Hdatasets, Hplugins.
Qed.

End OnTheReferenceStore.

(** ** More on parameters and on the apply engine *)

Section Frames.

Context {Cluster : Type} `{!Client Cluster}.
Variable env : Env.

(** Without a notify URL in the process environment (the variable unset, or
    set to nothing) parameter assembly does not fail: the renderer is called
    with [completeNotifyUrl] bound to the empty string. *)
Theorem replacePlaceholders_unset_url (yamlStr : string) (dataset : Dataset)
    (s : Cluster) (parameters : gmap string Value) :
  environ env !! "COMPLETE_NOTIFY_URL" = None
  ∨ environ env !! "COMPLETE_NOTIFY_URL" = Some "" →
  json.Unmarshal (Parameters (Plugin (DatasetMetadata (Spec dataset))))
  = (Some parameters, None) →
  ∃ used,
    EvReplaceTemplate yamlStr used (ReplaceTemplate env yamlStr used)
    ∈ trace (replacePlaceholders env yamlStr dataset s)
    ∧ used !! "completeNotifyUrl" = Some (VString "").
Proof.
  intros Hunset Hdecode. rewrite replacePlaceholders_run. simpl. rewrite Hdecode.
  eexists. split.
  - unfold trace. simpl. apply list_elem_of_further, list_elem_of_here.
  - rewrite lookup_insert_eq. unfold config.GetCompleteNotifyURL, config.GetString.
    by destruct Hunset as [->| ->].
Qed.

End Frames.

(** On the reference store [applyClient] touches the document of the identity
    it was given and no other: every other document is as it was, and none is
    removed. *)
Theorem memory_applyClient_touches_one (env : Env) (obj : Unstructured)
    (s : memory.Cluster) :
  let s' := final (applyClient env obj s) in
  (∀ key, key ≠ memory.documentKey (u_GroupVersionKind obj) (ObjectKeyOf obj) →
     memory.documents s' !! key = memory.documents s !! key)
  ∧ (∀ key, is_Some (memory.documents s !! key) →
       is_Some (memory.documents s' !! key)).
Proof.
  assert (∀ stamped : Unstructured,
            u_GroupVersionKind stamped = u_GroupVersionKind obj →
            ObjectKeyOf stamped = ObjectKeyOf obj →
            (∀ key, key ≠ memory.documentKey (u_GroupVersionKind obj) (ObjectKeyOf obj) →
               memory.documents (memory.putDocument stamped s) !! key
               = memory.documents s !! key)
            ∧ (∀ key, is_Some (memory.documents s !! key) →
                 is_Some (memory.documents (memory.putDocument stamped s) !! key)))
    as Hput.
  { intros stamped Hgvk Hkey. unfold memory.putDocument. simpl.
    rewrite Hgvk, Hkey. split.
    - intros key Hne. by rewrite lookup_insert_ne.
    - intros key Hsome.
      destruct (decide (memory.documentKey (u_GroupVersionKind obj) (ObjectKeyOf obj)
                        = key)) as [<-|Hne].
      + rewrite lookup_insert_eq. by eexists.
      + by rewrite lookup_insert_ne. }
  intros s'. subst s'. rewrite applyClient_run. simpl.
  destruct (memory.getDocument _ _ s) as [existing|err];
    [|destruct (errors_IsNotFound env err)]; unfold final; simpl; [| |done].
  - unfold memory.updateDocument. simpl.
    destruct (memory.documents s !! _); [|done].
    destruct (bool_decide _); [|done].
    destruct (Unstructured_eqb _ _); [done|]. by apply Hput.
  - unfold memory.createDocument.
    destruct (memory.documents s !! _); [done|]. by apply Hput.
Qed.

(** ** The further properties on the concrete deployment *)

Lemma deployment_keyedByName : keyedByName deployment.cluster.
Proof.
  intros key dataset Hlookup.
  apply elem_of_list_to_map_2 in Hlookup.
  repeat (apply elem_of_cons in Hlookup as [[= -> <-]|Hlookup]; [done|]).
  by apply elem_of_nil in Hlookup.
Qed.

Lemma memory_Reconcile_again_witness :
  final (Reconcile deployment.env (deployment.request deployment.ds1)
           (final (Reconcile deployment.env (deployment.request deployment.ds1)
                     deployment.cluster)))
  = final (Reconcile deployment.env (deployment.request deployment.ds1)
             deployment.cluster).
Proof.
  apply (memory_Reconcile_again deployment.env (deployment.request deployment.ds1)
           deployment.cluster).
  apply deployment_keyedByName.
Defined.


Lemma Reconcile_panic_cause_witness :
  ∃ fetched,
    Get_Dataset (req_NamespacedName (deployment.request deployment.ds8))
      deployment.cluster = Ok fetched
    ∧ LoadPlugin (Plugin (DatasetMetadata (Spec fetched))) = true
    ∧ json.parse (Parameters (Plugin (DatasetMetadata (Spec fetched)))) = Some VNull
    ∧ "assignment to entry in nil map" = "assignment to entry in nil map"
    ∧ Forall (λ ev, isDocumentWrite ev = false)
        (trace (Reconcile deployment.env (deployment.request deployment.ds8)
                  deployment.cluster)).
Proof.
  apply (Reconcile_panic_cause deployment.env (deployment.request deployment.ds8)
           deployment.cluster "assignment to entry in nil map").
  vm_compute. reflexivity.
Defined.

(** The filter on the deployment: the status write of the cycle on [ds1] is
    no event for the reconciler, a change of the plugin name is. *)
Example UpdateFunc_examples :
  UpdateFunc {| ObjectOld := ObjDataset deployment.ds1;
                ObjectNew := ObjDataset (SetState deployment.ds1 DatasetUnready) |}
  = false
  ∧ UpdateFunc {| ObjectOld := ObjDataset deployment.ds1;
                  ObjectNew := ObjDataset deployment.ds2 |} = false
  ∧ UpdateFunc {| ObjectOld := ObjDataset deployment.ds2;
                  ObjectNew := ObjDataset deployment.ds4 |} = true
  ∧ UpdateFunc {| ObjectOld := ObjNil; ObjectNew := ObjDataset deployment.ds4 |}
    = false.
Proof. vm_compute. by repeat split. Qed.

(** Read errors that are not not-found, on the deployment with reads refused. *)
Example Reconcile_read_errors_run :
  outcome (Reconcile deployment.env (deployment.request deployment.ds2)
             unreadableDatasets)
  = Returns (emptyResult, Some guarded.forbidden)
  ∧ outcome (Reconcile deployment.env (deployment.request deployment.ds2)
               unreadablePlugins)
    = Returns (emptyResult, Some guarded.forbidden)
  ∧ List.filter isManifestStep
      (trace (Reconcile deployment.env (deployment.request deployment.ds2)
                unreadablePlugins)) = [].
Proof. vm_compute. by repeat split. Qed.

Lemma replacePlaceholders_unset_url_witness :
  ∃ used,
    EvReplaceTemplate deployment.template used
      (ReplaceTemplate unconfigured deployment.template used)
    ∈ trace (replacePlaceholders unconfigured deployment.template deployment.ds2
               deployment.cluster)
    ∧ used !! "completeNotifyUrl" = Some (VString "").
Proof.
  apply (replacePlaceholders_unset_url unconfigured deployment.template
           deployment.ds2 deployment.cluster ∅).
  - by left.
  - vm_compute. reflexivity.
Defined.
